(* Verification of the detection-report aggregation engine of
   rsthackathon_START (inference.py, streamlit_app.py).

   Numbers coming from the detector and from JSON files are modelled as
   rationals [Q]; the IEEE rounding of the Python floats is not modelled,
   Python's [round(x, 4)] is modelled as round-half-even of the exact
   value. *)

From Stdlib Require Import QArith Qround ZArith List String Ascii Bool Lia.
From Stdlib Require Import Permutation Sorted.
Import ListNotations.
Open Scope string_scope.
Set Warnings "-register-all".

(* ------------------------------------------------------------------ *)
(** * Python values, exceptions and the error monad *)

(** A JSON value as produced by [json.load]; objects keep the order of
    their keys. *)
Inductive json : Type :=
| JNull
| JBool (b : bool)
| JNum (q : Q)
| JStr (s : string)
| JArr (xs : list json)
| JObj (kvs : list (string * json)).

Inductive exn : Type :=
| KeyError
| TypeError
| IndexError
| AttributeError
| JSONDecodeError
| ValueError
| ZeroDivisionError
| NameError.

Inductive outcome (A : Type) : Type :=
| Ok (a : A)
| Raise (e : exn).
Arguments Ok {A} a.
Arguments Raise {A} e.

Definition bind {A B} (m : outcome A) (f : A -> outcome B) : outcome B :=
  match m with
  | Ok a => f a
  | Raise e => Raise e
  end.

Notation "'let*' x ':=' m 'in' f" := (bind m (fun x => f))
  (at level 200, x name, m at level 100, f at level 200).

(** [d[k]] on a JSON object: [json.load] keeps the last binding of a key. *)
Definition obj_get (k : string) (kvs : list (string * json)) : option json :=
  fold_left (fun acc kv => if String.eqb (fst kv) k then Some (snd kv) else acc)
    kvs None.

(** Python truthiness of a JSON value. *)
Definition truthy (j : json) : bool :=
  match j with
  | JNull => false
  | JBool b => b
  | JNum q => negb (Qeq_bool q 0)
  | JStr s => negb (String.eqb s "")
  | JArr xs => match xs with [] => false | _ => true end
  | JObj kvs => match kvs with [] => false | _ => true end
  end.

(* ------------------------------------------------------------------ *)
(** * Strings and paths *)

(** [s.split(c)] for a one-character separator. *)
Fixpoint split_on (c : ascii) (s : string) : list string :=
  match s with
  | EmptyString => [""]
  | String a s' =>
      let rest := split_on c s' in
      if Ascii.eqb a c then "" :: rest
      else match rest with
           | r :: rs => String a r :: rs
           | [] => [String a ""]
           end
  end.

(** [sep.join(xs)]. *)
Fixpoint join (sep : string) (xs : list string) : string :=
  match xs with
  | [] => ""
  | [x] => x
  | x :: xs' => x ++ sep ++ join sep xs'
  end.

(** Index of the last occurrence of [c] in [s] ([str.rfind]). *)
Fixpoint rfind (c : ascii) (s : string) : option nat :=
  match s with
  | EmptyString => None
  | String a s' =>
      match rfind c s' with
      | Some i => Some (S i)
      | None => if Ascii.eqb a c then Some 0%nat else None
      end
  end.

(** [Path(p).name]: the last component of a slash-separated path. *)
Definition path_name (p : string) : string :=
  last (split_on "/"%char p) "".

(** [Path.stem] and [Path.suffix]: the suffix starts at the last dot, when
    that dot is neither the first nor the last character of the name. *)
Definition path_stem (p : string) : string :=
  let name := path_name p in
  match rfind "."%char name with
  | Some i => if ((0 <? i) && (i <? String.length name - 1))%nat
              then substring 0 i name else name
  | None => name
  end.

Definition path_suffix (p : string) : string :=
  let name := path_name p in
  match rfind "."%char name with
  | Some i => if ((0 <? i) && (i <? String.length name - 1))%nat
              then substring i (String.length name - i) name else ""
  | None => ""
  end.

(** [extract_image_id] (inference.py). *)
Definition extract_image_id (filename : string) : string :=
  let stem := path_stem filename in
  let fallback := hd "" (split_on "_"%char stem) in
  if String.prefix "pothole_" stem then
    let parts := split_on "_"%char stem in
    if (4 <=? List.length parts)%nat then join "_" (tl parts) else fallback
  else fallback.

(* ------------------------------------------------------------------ *)
(** * Numbers *)

Definition qlt (a b : Q) : bool := negb (Qle_bool b a).

(** [int(x)] on a float: truncation toward zero. *)
Definition py_int (x : Q) : Z := Z.quot (Qnum x) (Zpos (Qden x)).

(** [round(x, 4)]: round half to even at the fourth decimal. *)
Definition round4 (x : Q) : Q :=
  let y := x * (10000 # 1) in
  let f := Qfloor y in
  let r := y - inject_Z f in
  let z := if qlt r (1 # 2) then f
           else if qlt (1 # 2) r then (f + 1)%Z
           else if Z.even f then f else (f + 1)%Z in
  Qmake z 10000.

(** [sum(xs)], [min(xs)] and [max(xs)] on a list of numbers. *)
Definition qsum (xs : list Q) : Q := fold_left Qplus xs 0.

Definition qmin (xs : list Q) : outcome Q :=
  match xs with
  | [] => Raise ValueError
  | x :: xs' => Ok (fold_left (fun m y => if qlt y m then y else m) xs' x)
  end.

Definition qmax (xs : list Q) : outcome Q :=
  match xs with
  | [] => Raise ValueError
  | x :: xs' => Ok (fold_left (fun m y => if qlt m y then y else m) xs' x)
  end.

Definition nsum (xs : list nat) : nat := fold_left Nat.add xs 0%nat.

(** [zip(xs, ys)]. *)
Fixpoint zip {A B} (xs : list A) (ys : list B) : list (A * B) :=
  match xs, ys with
  | x :: xs', y :: ys' => (x, y) :: zip xs' ys'
  | _, _ => []
  end.

(* ------------------------------------------------------------------ *)
(** * Dictionaries *)

(** A hashable Python value used as a dictionary key. [True == 1] and
    [False == 0] in Python, and [1 == 1.0]. *)
Inductive pykey : Type :=
| KStr (s : string)
| KNum (q : Q)
| KBool (b : bool)
| KNone.

Definition key_num (k : pykey) : option Q :=
  match k with
  | KNum q => Some q
  | KBool b => Some (if b then 1 else 0)
  | _ => None
  end.

Definition key_eqb (a b : pykey) : bool :=
  match a, b with
  | KStr x, KStr y => String.eqb x y
  | KNone, KNone => true
  | _, _ =>
      match key_num a, key_num b with
      | Some x, Some y => Qeq_bool x y
      | _, _ => false
      end
  end.

(** [hash(v)] succeeds on scalars only. *)
Definition json_key (j : json) : outcome pykey :=
  match j with
  | JNull => Ok KNone
  | JBool b => Ok (KBool b)
  | JNum q => Ok (KNum q)
  | JStr s => Ok (KStr s)
  | JArr _ | JObj _ => Raise TypeError
  end.

(** A Python dict in insertion order, each key once. *)
Definition py_dict := list (pykey * json).

Fixpoint dict_get (k : pykey) (d : py_dict) : option json :=
  match d with
  | [] => None
  | (k', v) :: d' => if key_eqb k' k then Some v else dict_get k d'
  end.

(** [d[k] = v]: an existing key keeps its position and its first key
    object. *)
Fixpoint dict_set (k : pykey) (v : json) (d : py_dict) : py_dict :=
  match d with
  | [] => [(k, v)]
  | (k', v') :: d' => if key_eqb k' k then (k', v) :: d' else (k', v') :: dict_set k v d'
  end.

(** [d.update(e)]. *)
Definition dict_update (d e : py_dict) : py_dict :=
  fold_left (fun acc kv => dict_set (fst kv) (snd kv) acc) e d.

(** A JSON object read as a Python dict. *)
Definition dict_of_obj (kvs : list (string * json)) : py_dict :=
  fold_left (fun acc kv => dict_set (KStr (fst kv)) (snd kv) acc) kvs [].

(** [k in v] for a string [k]: key test on a dict, element test on a list,
    substring test on a string; a [TypeError] otherwise. *)
Definition py_contains (k : string) (v : json) : outcome bool :=
  match v with
  | JObj kvs => Ok (existsb (fun kv => String.eqb (fst kv) k) kvs)
  | JArr xs => Ok (existsb (fun x => match x with JStr s => String.eqb s k | _ => false end) xs)
  | JStr s => Ok (match String.index 0 k s with Some _ => true | None => false end)
  | _ => Raise TypeError
  end.

(** [v[k]] for a string [k]. *)
Definition py_getitem_str (k : string) (v : json) : outcome json :=
  match v with
  | JObj kvs => match obj_get k kvs with Some x => Ok x | None => Raise KeyError end
  | _ => Raise TypeError
  end.

(** [v[i]] for an integer [i]. *)
Definition py_getitem_int (i : nat) (v : json) : outcome json :=
  match v with
  | JArr xs => match nth_error xs i with Some x => Ok x | None => Raise IndexError end
  | JStr s => match String.get i s with
              | Some c => Ok (JStr (String c EmptyString))
              | None => Raise IndexError
              end
  | JObj _ => Raise KeyError
  | _ => Raise TypeError
  end.

Definition is_none (j : json) : bool :=
  match j with JNull => true | _ => false end.

(* ------------------------------------------------------------------ *)
(** * The aggregation engine: [save_detections_to_json] (inference.py) *)

(** An entry of ["labels"] of a feature's properties. *)
Record LabelStat : Type := {
  label : Z;
  avg_confidence : Q;
  min_confidence : Q;
  max_confidence : Q;
  count : nat
}.

(** A GeoJSON feature: one image's report. *)
Record Feature : Type := {
  image : string;
  image_id : string;
  longitude : json;
  latitude : json;
  labels : list LabelStat
}.

(** Lines 223-225: the [(label, score)] pairs with [score >= threshold]. *)
Definition filter_detections (lbls scores : list Q) (threshold : Q)
  : list (Q * Q) :=
  filter (fun ls => Qle_bool threshold (snd ls)) (zip lbls scores).

(** Lines 234-242: the coordinates of the metadata entry of [iid], or
    [None] when the id, the geometry or the coordinates are absent. *)
Definition find_coordinates (iid : string) (metadata_map : py_dict)
  : outcome (option (json * json)) :=
  match dict_get (KStr iid) metadata_map with
  | None => Ok None
  | Some entry =>
      let* has_geometry := py_contains "geometry" entry in
      if has_geometry then
        let* geometry := py_getitem_str "geometry" entry in
        let* has_coords := py_contains "coordinates" geometry in
        if has_coords then
          let* coords := py_getitem_str "coordinates" geometry in
          let* lon := py_getitem_int 0 coords in
          let* lat := py_getitem_int 1 coords in
          Ok (Some (lon, lat))
        else Ok None
      else Ok None
  end.

(** Lines 249-254: [label_confidences], a dict from [int(label)] to the
    list of scores, in insertion order. *)
Fixpoint add_confidence (k : Z) (s : Q) (d : list (Z * list Q))
  : list (Z * list Q) :=
  match d with
  | [] => [(k, [s])]
  | (k', v) :: d' =>
      if Z.eqb k' k then (k', (v ++ [s])%list) :: d' else (k', v) :: add_confidence k s d'
  end.

Definition label_confidences (filtered : list (Q * Q)) : list (Z * list Q) :=
  fold_left (fun d ls => add_confidence (py_int (fst ls)) (snd ls) d) filtered [].

(** [sorted(d.items())]: the keys of a dict are distinct, so the key
    decides the order. *)
Fixpoint insert_item (it : Z * list Q) (l : list (Z * list Q)) : list (Z * list Q) :=
  match l with
  | [] => [it]
  | x :: l' => if Z.leb (fst it) (fst x) then it :: l else x :: insert_item it l'
  end.

Definition sort_items (l : list (Z * list Q)) : list (Z * list Q) :=
  fold_right insert_item [] l.

(** Lines 257-266: one [LabelStat] per group. *)
Definition label_stat (it : Z * list Q) : outcome LabelStat :=
  let (lbl, scs) := it in
  let* mn := qmin scs in
  let* mx := qmax scs in
  Ok {| label := lbl;
        avg_confidence := round4 (qsum scs / inject_Z (Z.of_nat (List.length scs)));
        min_confidence := round4 mn;
        max_confidence := round4 mx;
        count := List.length scs |}.

Fixpoint map_outcome {A B} (f : A -> outcome B) (xs : list A) : outcome (list B) :=
  match xs with
  | [] => Ok []
  | x :: xs' => let* y := f x in let* ys := map_outcome f xs' in Ok (y :: ys)
  end.

Definition labels_info (filtered : list (Q * Q)) : outcome (list LabelStat) :=
  map_outcome label_stat (sort_items (label_confidences filtered)).

(** Lines 222-273: the feature of one image, before the collection is
    touched. [boxes] is an argument of the Python function that this part
    never reads. *)
Definition build_feature (image_path : string) (boxes : list (list Q))
    (lbls scores : list Q) (metadata_map : py_dict) (threshold : Q)
  : outcome (option Feature) :=
  match filter_detections lbls scores threshold with
  | [] => Ok None
  | filtered =>
      let iid := extract_image_id (path_name image_path) in
      let* c := find_coordinates iid metadata_map in
      match c with
      | None => Ok None
      | Some (lon, lat) =>
          if is_none lat || is_none lon then Ok None
          else
            let* info := labels_info filtered in
            Ok (Some {| image := path_name image_path; image_id := iid;
                        longitude := lon; latitude := lat; labels := info |})
      end
  end.

(** The ["summary"] object of the collection (lines 291-342). *)
Record Summary : Type := {
  total_images : nat;
  unique_labels : list Z;
  total_detections : nat;
  conf_min : Q;
  conf_max : Q;
  conf_avg : Q
}.

(** A parsed collection file: its ["type"], its ["features"] (absent, or
    a list of features as this function writes them) and its
    ["summary"]. *)
Record Collection : Type := {
  col_type : option json;
  col_features : option (list Feature);
  col_summary : option Summary
}.

(** The collection file on disk. [FUnreadable] covers a failed [open], a
    [json.load] error and a top-level value that is not an object (whose
    [.get] raises): all of them are caught by the bare [except]. *)
Inductive stored : Type :=
| FAbsent
| FUnreadable
| FObject (c : Collection).

Definition empty_collection : Collection :=
  {| col_type := Some (JStr "FeatureCollection"); col_features := Some [];
     col_summary := None |}.

Definition is_feature_collection (t : option json) : bool :=
  match t with
  | Some (JStr s) => String.eqb s "FeatureCollection"
  | _ => false
  end.

(** Lines 276-285. *)
Definition load_collection (f : stored) : Collection :=
  match f with
  | FAbsent | FUnreadable => empty_collection
  | FObject c => if is_feature_collection (col_type c) then c else empty_collection
  end.

(** [sorted(set(xs))]. *)
Fixpoint insert_uniq (x : Z) (l : list Z) : list Z :=
  match l with
  | [] => [x]
  | y :: l' => if (x <? y)%Z then x :: l
               else if (x =? y)%Z then l else y :: insert_uniq x l'
  end.

Definition sorted_set (xs : list Z) : list Z := fold_right insert_uniq [] xs.

Definition all_label_stats (features : list Feature) : list LabelStat :=
  flat_map labels features.

(** Lines 291-342: the summary, computed from the whole feature list. *)
Definition summary_of (features : list Feature) : outcome Summary :=
  let stats := all_label_stats features in
  let total := nsum (map count stats) in
  let* mn := match features with
             | [] => Ok 0
             | _ => let* m := qmin (map min_confidence stats) in Ok (round4 m)
             end in
  let* mx := match features with
             | [] => Ok 0
             | _ => let* m := qmax (map max_confidence stats) in Ok (round4 m)
             end in
  let* av := match features with
             | [] => Ok 0
             | _ => if (total =? 0)%nat then Raise ZeroDivisionError
                    else Ok (round4 (qsum (map (fun l => avg_confidence l * inject_Z (Z.of_nat (count l))) stats)
                                     / inject_Z (Z.of_nat total)))
             end in
  Ok {| total_images := List.length features;
        unique_labels := sorted_set (map label stats);
        total_detections := total;
        conf_min := mn; conf_max := mx; conf_avg := av |}.

(** [save_detections_to_json]: the returned feature (or [None]) and the
    collection file afterwards. *)
Definition save_detections_to_json (image_path : string) (boxes : list (list Q))
    (lbls scores : list Q) (metadata_map : py_dict) (threshold : Q) (file : stored)
  : outcome (option Feature * stored) :=
  let* r := build_feature image_path boxes lbls scores metadata_map threshold in
  match r with
  | None => Ok (None, file)
  | Some feature =>
      let geojson := load_collection file in
      let* features := match col_features geojson with
                       | Some fs => Ok fs
                       | None => Raise KeyError
                       end in
      let features' := (features ++ [feature])%list in
      let* summary := summary_of features' in
      Ok (Some feature,
          FObject {| col_type := col_type geojson; col_features := Some features';
                     col_summary := Some summary |})
  end.

(* ------------------------------------------------------------------ *)
(** * Box drawing: [draw_bounding_boxes] (inference.py) *)

(** [min(a, b)] and [max(a, b)]: the first argument unless the second is
    strictly smaller (larger). *)
Definition py_min (a b : Q) : Q := if qlt b a then b else a.
Definition py_max (a b : Q) : Q := if qlt a b then b else a.

(** One rectangle drawn on the image, with the index of its detection
    and the label and score its caption is made from. *)
Record Drawn : Type := {
  d_index : nat;
  d_x1 : Q; d_y1 : Q; d_x2 : Q; d_y2 : Q;
  d_label : Z;
  d_score : Q
}.

Definition corners (img_width img_height : Q) (box : list Q) : option (Q * Q * Q * Q) :=
  match box with
  | [x_center; y_center; width; height] =>
      let x1 := x_center - width / 2 in
      let y1 := y_center - height / 2 in
      let x2 := x_center + width / 2 in
      let y2 := y_center + height / 2 in
      Some (py_max 0 (py_min x1 img_width), py_max 0 (py_min y1 img_height),
            py_max 0 (py_min x2 img_width), py_max 0 (py_min y2 img_height))
  | _ => None
  end.

(** Lines 91-130. The corner variables outlive an iteration: a box whose
    length is not 4 reuses the previous corners, and raises a [NameError]
    when there are none yet. *)
Fixpoint draw_loop (img_width img_height threshold : Q) (i : nat)
    (prev : option (Q * Q * Q * Q)) (dets : list (list Q * Q * Q))
  : outcome (list Drawn) :=
  match dets with
  | [] => Ok []
  | (box, lbl, score) :: rest =>
      if qlt score threshold then draw_loop img_width img_height threshold (S i) prev rest
      else
        let cur := match corners img_width img_height box with
                   | Some c => Some c
                   | None => prev
                   end in
        match cur with
        | None => Raise NameError
        | Some (x1, y1, x2, y2) =>
            let skip := match corners img_width img_height box with
                        | Some _ => qlt (x2 - x1) 1 || qlt (y2 - y1) 1
                        | None => false
                        end in
            if skip then draw_loop img_width img_height threshold (S i) cur rest
            else
              let* ds := draw_loop img_width img_height threshold (S i) cur rest in
              Ok ({| d_index := i; d_x1 := x1; d_y1 := y1; d_x2 := x2; d_y2 := y2;
                     d_label := py_int lbl; d_score := score |} :: ds)
        end
  end.

Definition draw_bounding_boxes (img_width img_height : Q) (boxes : list (list Q))
    (lbls scores : list Q) (threshold : Q) : outcome (list Drawn) :=
  draw_loop img_width img_height threshold 0 None (zip (zip boxes lbls) scores).

(* ------------------------------------------------------------------ *)
(** * The metadata store: [load_metadata] (inference.py) *)

(** A metadata file: missing, not parseable as JSON, or parsed. *)
Inductive source : Type :=
| SrcMissing
| SrcUnparsable
| SrcJson (j : json).

(** Lines 157-161, one list entry: [entry.get("id") or entry.get("image_id")]. *)
Definition add_entry (acc : py_dict) (entry : json) : outcome py_dict :=
  match entry with
  | JObj kvs =>
      let id := match obj_get "id" kvs with Some v => v | None => JNull end in
      let key := if truthy id then id
                 else match obj_get "image_id" kvs with Some v => v | None => JNull end in
      if truthy key then let* k := json_key key in Ok (dict_set k entry acc)
      else Ok acc
  | _ => Raise AttributeError
  end.

Fixpoint add_entries (acc : py_dict) (entries : list json) : outcome py_dict :=
  match entries with
  | [] => Ok acc
  | e :: es => let* acc' := add_entry acc e in add_entries acc' es
  end.

(** Lines 146-171: [json.load] is not guarded. *)
Definition load_metadata (src : source) : outcome py_dict :=
  match src with
  | SrcMissing => Ok []
  | SrcUnparsable => Raise JSONDecodeError
  | SrcJson j =>
      match j with
      | JArr entries => add_entries [] entries
      | JObj kvs =>
          if existsb (fun kv => String.eqb (fst kv) "id") kvs then
            let* k := json_key (match obj_get "id" kvs with Some v => v | None => JNull end) in
            Ok (dict_set k j [])
          else Ok (dict_of_obj kvs)
      | _ => Ok []
      end
  end.

(** streamlit_app.py lines 394-398: [if path.exists():
    metadata_map.update(load_metadata(path))]. *)
Definition merge_source (acc : py_dict) (src : source) : outcome py_dict :=
  match src with
  | SrcMissing => Ok acc
  | _ => let* m := load_metadata src in Ok (dict_update acc m)
  end.

(** The metadata map of a run, from the pre-loaded and the crowd-upload
    metadata files; an exception aborts [run_inference_on_images], whose
    [except] returns [None]. *)
Definition run_metadata_map (pre users : source) : outcome py_dict :=
  let* m := merge_source [] pre in merge_source m users.

(* ------------------------------------------------------------------ *)
(** * The incremental processing policy (streamlit_app.py) *)

Definition ascii_lower (c : ascii) : ascii :=
  let n := nat_of_ascii c in
  if ((65 <=? n) && (n <=? 90))%nat then ascii_of_nat (n + 32) else c.

Fixpoint string_lower (s : string) : string :=
  match s with
  | EmptyString => EmptyString
  | String c s' => String (ascii_lower c) (string_lower s')
  end.

Definition ends_with (suf s : string) : bool :=
  (String.length suf <=? String.length s)%nat &&
  String.eqb (substring (String.length s - String.length suf) (String.length suf) s) suf.

(** [f"{p.stem}_detected{p.suffix}"]. *)
Definition detected_name (p : string) : string :=
  path_stem p ++ "_detected" ++ path_suffix p.

(** [dir.glob("*.jpg") + dir.glob("*.jpeg") + dir.glob("*.png")]: the glob
    is case-sensitive. *)
Definition user_images (entries : list string) : list string :=
  (filter (ends_with ".jpg") entries ++ filter (ends_with ".jpeg") entries
   ++ filter (ends_with ".png") entries)%list.

(** Lines 729-747: [should_run_inference]. [output] lists the names in the
    output directory. *)
Definition should_run_inference (preload_inference_done : bool)
    (users_dir_exists : bool) (users_dir : list string) (output : list string) : bool :=
  if negb preload_inference_done then true
  else if users_dir_exists then
    existsb (fun img => negb (existsb (String.eqb (detected_name img)) output))
      (user_images users_dir)
  else false.

Definition image_extensions : list string :=
  [".jpg"; ".jpeg"; ".png"; ".bmp"; ".tiff"; ".tif"].

Definition is_image (p : string) : bool :=
  existsb (String.eqb (string_lower (path_suffix p))) image_extensions.

(** Lines 363-384 of [run_inference_on_images]: the images of the
    pre-loaded directory, then those of the crowd-upload directory. The
    output directory is then removed and every one of them is processed. *)
Definition inference_candidates (pre_exists : bool) (pre_dir : list string)
    (users_dir_exists : bool) (users_dir : list string) : list string :=
  ((if pre_exists then filter is_image pre_dir else [])
   ++ (if users_dir_exists then filter is_image users_dir else []))%list.

(** Lines 750-752: the images run through inference on a page load. *)
Definition images_to_process (preload_inference_done : bool)
    (pre_exists : bool) (pre_dir : list string)
    (users_dir_exists : bool) (users_dir : list string) (output : list string)
  : list string :=
  if should_run_inference preload_inference_done users_dir_exists users_dir output
  then inference_candidates pre_exists pre_dir users_dir_exists users_dir
  else [].

(* ------------------------------------------------------------------ *)
(** * Predicates used in the statements *)

(** The scores of the surviving detections whose [int(label)] is [k], in
    detection order. *)
Definition group (k : Z) (filtered : list (Q * Q)) : list Q :=
  map snd (filter (fun ls => Z.eqb (py_int (fst ls)) k) filtered).

(** A metadata entry with a ["geometry"] object holding ["coordinates"]. *)
Definition has_coordinates (entry : json) : bool :=
  match entry with
  | JObj kvs =>
      match obj_get "geometry" kvs with
      | Some (JObj g) => match obj_get "coordinates" g with Some _ => true | None => false end
      | _ => false
      end
  | _ => false
  end.

(** The metadata file format: an entry is an object; its geometry, when
    present, is an object; its coordinates, when present, are
    [[longitude, latitude, ...]] numbers. *)
Definition wf_entry (entry : json) : bool :=
  match entry with
  | JObj kvs =>
      match obj_get "geometry" kvs with
      | None => true
      | Some (JObj g) =>
          match obj_get "coordinates" g with
          | None => true
          | Some (JArr (JNum _ :: JNum _ :: _)) => true
          | Some _ => false
          end
      | Some _ => false
      end
  | _ => false
  end.

Definition wf_metadata (mm : py_dict) : bool := forallb (fun kv => wf_entry (snd kv)) mm.

(** A report is produced for the image: some detection survives and its
    resolved id has an entry with coordinates. *)
Definition report_expected (image_path : string) (lbls scores : list Q)
    (mm : py_dict) (threshold : Q) : bool :=
  negb (match filter_detections lbls scores threshold with [] => true | _ => false end)
  && match dict_get (KStr (extract_image_id (path_name image_path))) mm with
     | Some entry => has_coordinates entry
     | None => false
     end.

(** The loaded collection has a ["features"] list to append to. *)
Definition has_features (file : stored) : bool :=
  match col_features (load_collection file) with Some _ => true | None => false end.

Definition features_of (file : stored) : option (list Feature) :=
  match file with FObject c => col_features c | _ => None end.

Definition summary_in (file : stored) : option Summary :=
  match file with FObject c => col_summary c | _ => None end.

(** A [LabelStat] holds the statistics of its label's group: the count,
    and the mean, minimum and maximum score rounded to four decimals. *)
Definition stat_of_group (filtered : list (Q * Q)) (ls : LabelStat) : Prop :=
  let g := group (label ls) filtered in
  g <> [] /\
  count ls = List.length g /\
  avg_confidence ls = round4 (qsum g / inject_Z (Z.of_nat (List.length g))) /\
  (exists mn, qmin g = Ok mn /\ min_confidence ls = round4 mn) /\
  (exists mx, qmax g = Ok mx /\ max_confidence ls = round4 mx).

(** The example of the spec: two reports for label 3, the first with two
    detections of score 0.8, the second with one of score 0.6. *)
Definition example_metadata : py_dict :=
  [(KStr "abc", JObj [("geometry", JObj [("coordinates", JArr [JNum 12; JNum 45])])])].

Definition example_run : outcome (option Feature * stored) :=
  let* r := save_detections_to_json "img/abc_1.jpg" [] [3; 3] [8 # 10; 8 # 10]
              example_metadata (1 # 2) FAbsent in
  save_detections_to_json "img/abc_2.jpg" [] [3] [6 # 10] example_metadata (1 # 2) (snd r).

(** The example of a degenerate box: in a 100 x 100 image, the first box
    has zero width, the second is drawn; both detections have label 3. *)
Definition example_boxes : list (list Q) := [[50; 50; 0; 10]; [50; 50; 20; 20]].

(** The report of ["img/abc_1.jpg"] with labels [3; 1; 3] and scores
    [0.8; 0.1; 0.5] at threshold 0.5, and the collection file it leaves
    when written to an absent file. *)
Definition example_report : Feature :=
  {| image := "abc_1.jpg"; image_id := "abc"; longitude := JNum 12; latitude := JNum 45;
     labels := [{| label := 3; avg_confidence := Qmake 6500 10000;
                   min_confidence := Qmake 5000 10000;
                   max_confidence := Qmake 8000 10000; count := 2 |}] |}.

Definition example_file : stored :=
  FObject {| col_type := Some (JStr "FeatureCollection");
             col_features := Some [example_report];
             col_summary := Some {| total_images := 1; unique_labels := [3%Z];
                                    total_detections := 2;
                                    conf_min := Qmake 5000 10000;
                                    conf_max := Qmake 8000 10000;
                                    conf_avg := Qmake 6500 10000 |} |}.

(* ------------------------------------------------------------------ *)
(** * More Python operations on JSON values *)

(** [v.get(k, default)]: only a dict has [.get]. *)
Definition py_get (k : string) (default : json) (v : json) : outcome json :=
  match v with
  | JObj kvs => Ok (match obj_get k kvs with Some x => x | None => default end)
  | _ => Raise AttributeError
  end.

(** The keys of the dict [json.load] builds from an object, in its order. *)
Definition obj_keys (kvs : list (string * json)) : list json :=
  map (fun kv => match fst kv with KStr s => JStr s | _ => JNull end) (dict_of_obj kvs).

Fixpoint string_chars (s : string) : list json :=
  match s with
  | EmptyString => []
  | String c s' => JStr (String c EmptyString) :: string_chars s'
  end.

(** [for x in v]: a dict yields its keys, a string its characters. *)
Definition py_iter (v : json) : outcome (list json) :=
  match v with
  | JArr xs => Ok xs
  | JObj kvs => Ok (obj_keys kvs)
  | JStr s => Ok (string_chars s)
  | _ => Raise TypeError
  end.

(** [len(v)]. *)
Definition py_len (v : json) : outcome nat :=
  match v with
  | JArr xs => Ok (List.length xs)
  | JObj kvs => Ok (List.length (dict_of_obj kvs))
  | JStr s => Ok (String.length s)
  | _ => Raise TypeError
  end.

(** The value of a number; [bool] is a subclass of [int]. *)
Definition num_of (v : json) : option Q :=
  match v with
  | JNum q => Some q
  | JBool b => Some (if b then 1 else 0)
  | _ => None
  end.

Definition is_number (v : json) : bool :=
  match num_of v with Some _ => true | None => false end.

(** [a > b] where [b] is a number: a [TypeError] unless [a] is one too. *)
Definition gt_number (a b : json) : outcome bool :=
  match num_of a, num_of b with
  | Some x, Some y => Ok (qlt y x)
  | _, _ => Raise TypeError
  end.

(** [x + v] for a number [x]. *)
Definition add_number (x : Q) (v : json) : outcome Q :=
  match num_of v with
  | Some y => Ok (x + y)
  | None => Raise TypeError
  end.

(** [v == n] for an int [n]. *)
Definition eq_int (v : json) (n : Z) : bool :=
  match num_of v with
  | Some x => Qeq_bool x (inject_Z n)
  | None => false
  end.

(** [f"{v:.3f}"] and [f"{v:.1%}"]: a string has no format code [f] or
    [%] (ValueError); None, a list or a dict rejects any format spec
    (TypeError). *)
Definition check_float_format (v : json) : outcome unit :=
  match v with
  | JNum _ | JBool _ => Ok tt
  | JStr _ => Raise ValueError
  | _ => Raise TypeError
  end.

(* ------------------------------------------------------------------ *)
(** * The collection file as JSON (inference.py lines 267-348) *)

Definition label_json (l : LabelStat) : json :=
  JObj [("label", JNum (inject_Z (label l)));
        ("avg_confidence", JNum (avg_confidence l));
        ("min_confidence", JNum (min_confidence l));
        ("max_confidence", JNum (max_confidence l));
        ("count", JNum (inject_Z (Z.of_nat (count l))))].

Definition feature_json (f : Feature) : json :=
  JObj [("type", JStr "Feature");
        ("geometry", JObj [("type", JStr "Point");
                           ("coordinates", JArr [longitude f; latitude f])]);
        ("properties", JObj [("image", JStr (image f)); ("image_id", JStr (image_id f));
                             ("labels", JArr (map label_json (labels f)))])].

Definition summary_json (s : Summary) : json :=
  JObj [("total_images", JNum (inject_Z (Z.of_nat (total_images s))));
        ("unique_labels", JArr (map (fun z => JNum (inject_Z z)) (unique_labels s)));
        ("total_detections", JNum (inject_Z (Z.of_nat (total_detections s))));
        ("confidence_stats", JObj [("min", JNum (conf_min s)); ("max", JNum (conf_max s));
                                   ("avg", JNum (conf_avg s))])].

(** The object [json.dump] writes for a collection (the keys the engine
    reads or writes). *)
Definition collection_json (c : Collection) : json :=
  JObj ((match col_type c with Some t => [("type", t)] | None => [] end)
        ++ (match col_features c with
            | Some fs => [("features", JArr (map feature_json fs))]
            | None => []
            end)
        ++ (match col_summary c with Some s => [("summary", summary_json s)] | None => [] end))%list.

(* ------------------------------------------------------------------ *)
(** * The map markers: [add_geojson_markers] (streamlit_app.py) *)

(** What [folium.Marker] receives: the location and the icon colour. *)
Record Marker : Type := {
  mk_lat : json;
  mk_lon : json;
  mk_color : string
}.

(** Lines 170-178. *)
Definition marker_color (dominant_label : json) : string :=
  if eq_int dominant_label 1 then "red"
  else if eq_int dominant_label 2 then "blue"
  else if eq_int dominant_label 3 then "orange"
  else "gray".

(** Lines 112-119: the label of the first entry whose count beats every
    count before it, starting from [max_count = 0]. *)
Fixpoint dominant_loop (items : list json) (max_count dominant_label : json)
  : outcome json :=
  match items with
  | [] => Ok dominant_label
  | it :: rest =>
      let* c := py_get "count" (JNum 1) it in
      let* gt := gt_number c max_count in
      if gt then
        let* l := py_get "label" JNull it in
        dominant_loop rest c l
      else dominant_loop rest max_count dominant_label
  end.

(** Lines 127-141, one label entry of the popup: the operations that can
    raise ([LABEL_MAP.get] hashes the label, the confidence is formatted,
    the count compared with 1). *)
Definition detection_html (it : json) : outcome unit :=
  let* label_id := py_get "label" JNull it in
  let* _ := json_key label_id in
  let* avg_conf := py_get "avg_confidence" (JNum 0) it in
  let* cnt := py_get "count" (JNum 1) it in
  let* _ := check_float_format avg_conf in
  let* _ := gt_number cnt (JNum 1) in
  Ok tt.

(** Lines 83-188, one feature: [None] when the label filter skips it.
    The popup text and the detected-image lookup (whose read errors are
    caught) are not modelled, only the exceptions they can raise. *)
Definition feature_marker (label_filter : option (list Z)) (feature : json)
  : outcome (option Marker) :=
  let* geometry := py_getitem_str "geometry" feature in
  let* coords := py_getitem_str "coordinates" geometry in
  let* props := py_getitem_str "properties" feature in
  let* lat := py_getitem_int 1 coords in
  let* lon := py_getitem_int 0 coords in
  let* _ := check_float_format lat in
  let* _ := check_float_format lon in
  let* image_filename := py_get "image" (JStr "") props in
  let* _ := py_get "image_id" (JStr "Unknown") props in
  let* lbls := py_get "labels" (JArr []) props in
  let* keep := match label_filter with
               | None => Ok true
               | Some fl =>
                   let* items := py_iter lbls in
                   let* ids := map_outcome (fun it =>
                                 let* l := py_get "label" JNull it in
                                 let* _ := json_key l in Ok l) items in
                   Ok (existsb (fun l => existsb (eq_int l) fl) ids)
               end in
  if negb keep then Ok None
  else
    let* has_labels := if truthy lbls then let* n := py_len lbls in Ok (0 <? n)%nat
                       else Ok false in
    let* dominant_label := if has_labels then
                             let* items := py_iter lbls in dominant_loop items (JNum 0) JNull
                           else Ok JNull in
    let* _ := if has_labels then let* items := py_iter lbls in map_outcome detection_html items
              else Ok [] in
    let* _ := if truthy image_filename then
                match image_filename with JStr _ => Ok tt | _ => Raise TypeError end
              else Ok tt in
    Ok (Some {| mk_lat := lat; mk_lon := lon; mk_color := marker_color dominant_label |}).

(** The markers added to the map, and the exception that stopped the loop;
    the markers added before it stay on the map. *)
Fixpoint markers_loop (label_filter : option (list Z)) (features : list json)
  : list Marker * option exn :=
  match features with
  | [] => ([], None)
  | f :: rest =>
      match feature_marker label_filter f with
      | Raise e => ([], Some e)
      | Ok None => markers_loop label_filter rest
      | Ok (Some m) => let (ms, e) := markers_loop label_filter rest in (m :: ms, e)
      end
  end.

(** Lines 77-83. *)
Definition add_geojson_markers (geojson_data : option json) (label_filter : option (list Z))
  : list Marker * option exn :=
  match geojson_data with
  | None => ([], None)
  | Some d =>
      if negb (truthy d) then ([], None)
      else match py_get "features" (JArr []) d with
           | Raise e => ([], Some e)
           | Ok fs => match py_iter fs with
                      | Raise e => ([], Some e)
                      | Ok items => markers_loop label_filter items
                      end
           end
  end.

(* ------------------------------------------------------------------ *)
(** * [load_geojson] and [create_map] (streamlit_app.py) *)

(** Lines 57-66, one crowd-upload metadata entry. *)
Definition user_feature (entry : json) : outcome json :=
  let* geometry := py_get "geometry"
                     (JObj [("type", JStr "Point"); ("coordinates", JArr [JNum 0; JNum 0])]) entry in
  let* img := py_get "image" (JStr "") entry in
  let* iid := py_get "image_id" (JStr "") entry in
  let* captured_at := py_get "captured_at" (JStr "") entry in
  let* lbls := py_get "labels" (JArr []) entry in
  Ok (JObj [("type", JStr "Feature"); ("geometry", geometry);
            ("properties", JObj [("image", img); ("image_id", iid);
                                 ("captured_at", captured_at); ("labels", lbls)])]).

(** Lines 55-69: the features appended before an exception are kept, the
    exception itself is swallowed. *)
Fixpoint user_features (entries : list json) : list json :=
  match entries with
  | [] => []
  | e :: es => match user_feature e with
               | Ok f => f :: user_features es
               | Raise _ => []
               end
  end.

(** Lines 41-74. [points] is [points.geojson], [users] the crowd-upload
    metadata file. *)
Definition load_geojson (points users : source) : outcome (option json) :=
  let* pre := match points with
              | SrcMissing => Ok []
              | SrcUnparsable => Raise JSONDecodeError
              | SrcJson d => let* fs := py_get "features" (JArr []) d in py_iter fs
              end in
  let user := match users with
              | SrcJson l => match py_iter l with
                             | Ok entries => user_features entries
                             | Raise _ => []
                             end
              | _ => []
              end in
  match (pre ++ user)%list with
  | [] => Ok None
  | features => Ok (Some (JObj [("type", JStr "FeatureCollection"); ("features", JArr features)]))
  end.

(** Lines 191-212, the markers of [create_map]: [detections.json] when it
    exists, [load_geojson] otherwise. *)
Definition create_map_markers (show_geojson : bool) (detections points users : source)
    (label_filter : option (list Z)) : list Marker * option exn :=
  if negb show_geojson then ([], None)
  else match detections with
       | SrcJson d => add_geojson_markers (Some d) label_filter
       | SrcUnparsable => ([], Some JSONDecodeError)
       | SrcMissing => match load_geojson points users with
                       | Ok g => add_geojson_markers g label_filter
                       | Raise e => ([], Some e)
                       end
       end.

(** The metadata entry the crowd-upload page appends (mobile_upload.py
    lines 133-151). *)
Definition mobile_entry (filename timestamp captured_at : string) (longitude latitude : Q)
  : json :=
  JObj [("image", JStr filename); ("image_id", JStr timestamp);
        ("captured_at", JStr captured_at);
        ("geometry", JObj [("type", JStr "Point");
                           ("coordinates", JArr [JNum longitude; JNum latitude])]);
        ("labels", JArr [JObj [("label", JNum 3); ("confidence", JNum (95 # 100));
                               ("avg_confidence", JNum (95 # 100)); ("count", JNum 1)]])].

(* ------------------------------------------------------------------ *)
(** * The results summary of the sidebar (streamlit_app.py lines 545-568) *)

Record SidebarStats : Type := {
  sb_images : nat;
  sb_detections : Q;
  sb_cracks : Q;
  sb_manholes : Q;
  sb_potholes : Q
}.

(** [if label_id in label_counts: label_counts[label_id] += count] with
    [label_counts = {1: 0, 2: 0, 3: 0}]. *)
Definition count_label (label_id cnt : json) (cs : Q * Q * Q) : outcome (Q * Q * Q) :=
  let* k := json_key label_id in
  match cs with
  | (c1, c2, c3) =>
      if key_eqb (KNum 1) k then let* v := add_number c1 cnt in Ok (v, c2, c3)
      else if key_eqb (KNum 2) k then let* v := add_number c2 cnt in Ok (c1, v, c3)
      else if key_eqb (KNum 3) k then let* v := add_number c3 cnt in Ok (c1, c2, v)
      else Ok cs
  end.

Fixpoint sidebar_items (items : list json) (acc : Q * (Q * Q * Q))
  : outcome (Q * (Q * Q * Q)) :=
  match items with
  | [] => Ok acc
  | it :: rest =>
      let* label_id := py_get "label" JNull it in
      let* cnt := py_get "count" (JNum 1) it in
      let* td := add_number (fst acc) cnt in
      let* cs := count_label label_id cnt (snd acc) in
      sidebar_items rest (td, cs)
  end.

Fixpoint sidebar_features (features : list json) (acc : Q * (Q * Q * Q))
  : outcome (Q * (Q * Q * Q)) :=
  match features with
  | [] => Ok acc
  | f :: rest =>
      let* props := py_get "properties" (JObj []) f in
      let* lbls := py_get "labels" (JArr []) props in
      let* items := py_iter lbls in
      let* acc' := sidebar_items items acc in
      sidebar_features rest acc'
  end.

(** [None]: "No data to display". *)
Definition sidebar_stats (data_to_analyze : option json) : outcome (option SidebarStats) :=
  match data_to_analyze with
  | None => Ok None
  | Some d =>
      if negb (truthy d) then Ok None
      else
        let* has := py_contains "features" d in
        if negb has then Ok None
        else
          let* fs := py_get "features" (JArr []) d in
          let* n := py_len fs in
          let* items := py_iter fs in
          let* acc := sidebar_features items (0, (0, 0, 0)) in
          match acc with
          | (td, (c1, c2, c3)) =>
              Ok (Some {| sb_images := n; sb_detections := td; sb_cracks := c1;
                          sb_manholes := c2; sb_potholes := c3 |})
          end
  end.

(* ------------------------------------------------------------------ *)
(** * Batch inference: [run_inference], [process_image_batch]
      (inference.py) and [run_inference_on_images] (streamlit_app.py) *)

(** The ONNX session on one image: preprocessing, [session.run] and the
    parsing of its outputs, giving boxes, labels and scores or raising.
    The model is not modelled: it is an input. *)
Definition detector : Type := string -> outcome (list (list Q) * list Q * list Q).

(** [run_inference] (lines 430-521) with [verbose=False]: the boxes are
    drawn on the resized image, of the size the model's input shape
    fixes. *)
Definition run_inference (detect : detector) (img_width img_height : Q) (image_path : string)
    (threshold : Q) : outcome (list (list Q) * list Q * list Q) :=
  let* d := detect image_path in
  match d with
  | (boxes, lbls, scores) =>
      let* _ := draw_bounding_boxes img_width img_height boxes lbls scores threshold in
      Ok d
  end.

(** One entry of the returned list: the detections and the feature, or
    the exception. *)
Inductive batch_result : Type :=
| BOk (image_path : string) (boxes : list (list Q)) (lbls scores : list Q)
      (feature : option Feature)
| BError (image_path : string) (e : exn).

Definition result_path (r : batch_result) : string :=
  match r with BOk p _ _ _ _ => p | BError p _ => p end.

Definition result_features (rs : list batch_result) : list Feature :=
  flat_map (fun r => match r with BOk _ _ _ _ (Some f) => [f] | _ => [] end) rs.

(** The loop body of lines 384-425: [outs] lists the files of the output
    directory, [file] is the collection file. The detected image is saved
    by [run_inference] before [save_detections_to_json] runs. *)
Definition batch_step (detect : detector) (img_width img_height : Q) (metadata_map : py_dict)
    (output_dir output_json : bool) (threshold : Q) (st : list string * stored) (p : string)
  : batch_result * (list string * stored) :=
  let (outs, file) := st in
  match run_inference detect img_width img_height p threshold with
  | Raise e => (BError p e, st)
  | Ok (boxes, lbls, scores) =>
      let outs' := if output_dir then (outs ++ [detected_name p])%list else outs in
      if output_json && match metadata_map with [] => false | _ => true end then
        match save_detections_to_json p boxes lbls scores metadata_map threshold file with
        | Raise e => (BError p e, (outs', file))
        | Ok (feature, file') => (BOk p boxes lbls scores feature, (outs', file'))
        end
      else (BOk p boxes lbls scores None, (outs', file))
  end.

Fixpoint batch_loop (detect : detector) (img_width img_height : Q) (metadata_map : py_dict)
    (output_dir output_json : bool) (threshold : Q) (paths : list string)
    (st : list string * stored) : list batch_result * (list string * stored) :=
  match paths with
  | [] => ([], st)
  | p :: ps =>
      let (r, st') := batch_step detect img_width img_height metadata_map output_dir output_json
                        threshold st p in
      let (rs, st'') := batch_loop detect img_width img_height metadata_map output_dir output_json
                          threshold ps st' in
      (r :: rs, st'')
  end.

(** [process_image_batch] (lines 351-427): loading the session can raise. *)
Definition process_image_batch (session : outcome detector) (img_width img_height : Q)
    (paths : list string) (metadata_map : py_dict) (output_dir output_json : bool)
    (threshold : Q) (st : list string * stored)
  : outcome (list batch_result) * (list string * stored) :=
  match session with
  | Raise e => (Raise e, st)
  | Ok detect =>
      let (rs, st') := batch_loop detect img_width img_height metadata_map output_dir output_json
                         threshold paths st in
      (Ok rs, st')
  end.

(** [run_inference_on_images] (lines 351-447): the result ([None] on an
    exception or without images) and the output directory afterwards (its
    image files and [detections.json]). *)
Definition run_inference_on_images (session : outcome detector) (img_width img_height : Q)
    (threshold : Q) (pre_exists : bool) (pre_dir : list string)
    (users_dir_exists : bool) (users_dir : list string) (pre_meta users_meta : source)
    (st : list string * stored) : option (list batch_result) * (list string * stored) :=
  match inference_candidates pre_exists pre_dir users_dir_exists users_dir with
  | [] => (None, st)
  | image_files =>
      match run_metadata_map pre_meta users_meta with
      | Raise _ => (None, st)
      | Ok metadata_map =>
          match process_image_batch session img_width img_height image_files metadata_map
                  true true threshold ([], FAbsent) with
          | (Ok rs, st') => (Some rs, st')
          | (Raise _, st') => (None, st')
          end
      end
  end.

(* ------------------------------------------------------------------ *)
(** * Predicates on map data *)

Definition hashable (v : json) : bool :=
  match v with JArr _ | JObj _ => false | _ => true end.

Definition get_or (k : string) (default : json) (kvs : list (string * json)) : json :=
  match obj_get k kvs with Some x => x | None => default end.

(** A label entry the popup renders. *)
Definition wf_label_item (it : json) : bool :=
  match it with
  | JObj kvs => hashable (get_or "label" JNull kvs) && is_number (get_or "count" (JNum 1) kvs)
                && is_number (get_or "avg_confidence" (JNum 0) kvs)
  | _ => false
  end.

(** The count and the label of a label entry. *)
Definition count_of (it : json) : Q :=
  match it with
  | JObj kvs => match num_of (get_or "count" (JNum 1) kvs) with Some q => q | None => 0 end
  | _ => 0
  end.

Definition label_of (it : json) : json :=
  match it with JObj kvs => get_or "label" JNull kvs | _ => JNull end.

(** The label entries of a map feature. *)
Definition feature_items (f : json) : list json :=
  match f with
  | JObj kvs =>
      match get_or "properties" JNull kvs with
      | JObj p => match get_or "labels" (JArr []) p with JArr items => items | _ => [] end
      | _ => []
      end
  | _ => []
  end.

(** A feature the map renders: numeric coordinates, a string image name
    (or a falsy one) and a list of renderable label entries. *)
Definition wf_map_feature (f : json) : bool :=
  match f with
  | JObj kvs =>
      match obj_get "geometry" kvs, obj_get "properties" kvs with
      | Some (JObj g), Some (JObj p) =>
          match obj_get "coordinates" g with
          | Some (JArr (lon :: lat :: _)) =>
              is_number lon && is_number lat
              && match obj_get "image" p with
                 | None | Some (JStr _) => true
                 | Some v => negb (truthy v)
                 end
              && match obj_get "labels" p with
                 | None => true
                 | Some (JArr items) => forallb wf_label_item items
                 | Some _ => false
                 end
          | _ => false
          end
      | _, _ => false
      end
  | _ => false
  end.

(** The coordinates of a map feature. *)
Definition feature_lat (f : json) : json :=
  match f with
  | JObj kvs => match get_or "geometry" JNull kvs with
                | JObj g => match get_or "coordinates" JNull g with
                            | JArr (_ :: lat :: _) => lat
                            | _ => JNull
                            end
                | _ => JNull
                end
  | _ => JNull
  end.

Definition feature_lon (f : json) : json :=
  match f with
  | JObj kvs => match get_or "geometry" JNull kvs with
                | JObj g => match get_or "coordinates" JNull g with
                            | JArr (lon :: _) => lon
                            | _ => JNull
                            end
                | _ => JNull
                end
  | _ => JNull
  end.

(** The label filter keeps a feature with some label in it. *)
Definition filter_keeps (fl : list Z) (f : json) : bool :=
  existsb (fun it => existsb (eq_int (label_of it)) fl) (feature_items f).

(** The colour of a label id. *)
Definition label_color (z : Z) : string :=
  if (z =? 1)%Z then "red" else if (z =? 2)%Z then "blue"
  else if (z =? 3)%Z then "orange" else "gray".

(** The sum of the counts of the label entries with label [k]. *)
Definition label_total (k : Z) (stats : list LabelStat) : nat :=
  nsum (map count (filter (fun l => Z.eqb (label l) k) stats)).

(** A detector that finds one pothole in the middle of every image, and
    a pre-loaded metadata file locating the image [abc]. *)
Definition example_detector : detector :=
  fun _ => Ok ([[50; 50; 20; 20]], [3], [9 # 10]).

(** The same detector, failing on the image [bad.jpg]. *)
Definition example_failing_detector : detector :=
  fun p => if String.eqb p "bad.jpg" then Raise ValueError else example_detector p.

Definition example_pre_meta : source :=
  SrcJson (JArr [JObj [("id", JStr "abc");
                       ("geometry", JObj [("coordinates", JArr [JNum 12; JNum 45])])]]).

(** [n] as a Python float. *)
Definition nq (n : nat) : Q := inject_Z (Z.of_nat n).

(** The arguments of one crowd upload: file name, timestamp, capture
    time, longitude and latitude. *)
Definition mobile_of (e : string * string * string * Q * Q) : json :=
  match e with (fn, ts, ca, lon, lat) => mobile_entry fn ts ca lon lat end.

(** The marker of a map feature: its coordinates, and the colour of the
    first label entry whose count is the largest positive one (gray when
    no count is positive). *)
Definition map_marker_rel (f : json) (m : Marker) : Prop :=
  mk_lat m = feature_lat f /\ mk_lon m = feature_lon f /\
  (((forall x, In x (feature_items f) -> count_of x <= 0) /\ mk_color m = "gray") \/
   exists pre it post, feature_items f = (pre ++ it :: post)%list /\ 0 < count_of it /\
     (forall x, In x pre -> count_of x < count_of it) /\
     (forall x, In x post -> count_of x <= count_of it) /\
     mk_color m = marker_color (label_of it)).

(** The same for a feature of the collection file. *)
Definition saved_marker_rel (f : Feature) (m : Marker) : Prop :=
  mk_lat m = latitude f /\ mk_lon m = longitude f /\
  ((Forall (fun l => count l = 0%nat) (labels f) /\ mk_color m = "gray") \/
   exists pre l post, labels f = (pre ++ l :: post)%list /\ (0 < count l)%nat /\
     Forall (fun x => (count x < count l)%nat) pre /\
     Forall (fun x => (count x <= count l)%nat) post /\
     mk_color m = label_color (label l)).

(** The label filter keeps a feature of the collection file with some
    label in it. *)
Definition keeps_labels (zs : list Z) (f : Feature) : bool :=
  existsb (fun ls => existsb (Z.eqb (label ls)) zs) (labels f).

(** A map feature with a manhole entry and a more frequent pothole entry,
    and a feature of the collection file with two pothole and two crack
    detections. *)
Definition example_map_feature : json :=
  JObj [("geometry", JObj [("coordinates", JArr [JNum 12; JNum 45])]);
        ("properties", JObj [("labels", JArr [JObj [("label", JNum 2); ("count", JNum 1)];
                                              JObj [("label", JNum 3); ("count", JNum 4)]])])].

Definition example_feature (lat : json) : Feature :=
  {| image := "abc_1.jpg"; image_id := "abc"; longitude := JNum 12; latitude := lat;
     labels := [{| label := 1; avg_confidence := 1 # 2; min_confidence := 1 # 2;
                   max_confidence := 1 # 2; count := 2 |};
                {| label := 3; avg_confidence := 9 # 10; min_confidence := 9 # 10;
                   max_confidence := 9 # 10; count := 2 |}] |}.

Definition example_collection (fs : list Feature) : Collection :=
  {| col_type := Some (JStr "FeatureCollection"); col_features := Some fs; col_summary := None |}.

(* ------------------------------------------------------------------ *)
(** * Auxiliary functions of the proofs *)

(** The number of occurrences of [c] in [s]. *)
Fixpoint count_char (c : ascii) (s : string) : nat :=
  match s with
  | EmptyString => 0
  | String a s' => (if Ascii.eqb a c then 1 else 0) + count_char c s'
  end.


(** Lookup in the dict [label_confidences]. *)
Fixpoint assoc_get (k : Z) (d : list (Z * list Q)) : option (list Q) :=
  match d with
  | [] => None
  | (k', v) :: d' => if Z.eqb k' k then Some v else assoc_get k d'
  end.

(** The sizes of the groups of such a dict. *)
Definition group_sizes (d : list (Z * list Q)) : list nat :=
  map (fun kv => List.length (snd kv)) d.

(** The order [sorted] puts the items in. *)
Definition key_le (a b : Z * list Q) : Prop := (fst a <= fst b)%Z.

(* ------------------------------------------------------------------ *)
(** * Lemmas: strings *)

Lemma prefix_app : forall p s, String.prefix p s = true -> exists r, s = (p ++ r)%string.
Proof.
  induction p as [|a p IH]; intros s H.
  - exists s. reflexivity.
  - destruct s as [|b s]; simpl in H; [discriminate|].
    destruct (ascii_dec a b) as [<-|]; [|discriminate].
    destruct (IH s H) as [r ->]. exists r. reflexivity.
Qed.

Lemma prefix_app_true : forall p r, String.prefix p (p ++ r) = true.
Proof.
  induction p as [|a p IH]; intros r; [destruct r; reflexivity|].
  simpl. destruct (ascii_dec a a) as [_|n]; [apply IH|contradiction].
Qed.

Lemma split_on_length : forall c s, List.length (split_on c s) = S (count_char c s).
Proof.
  intros c s; induction s as [|a s IH]; simpl; [reflexivity|].
  destruct (Ascii.eqb a c); simpl.
  - rewrite IH. reflexivity.
  - destruct (split_on c s) as [|r rs]; simpl in *; [discriminate|]. exact IH.
Qed.

Lemma count_char_substring : forall c s n, (count_char c (substring 0 n s) <= count_char c s)%nat.
Proof.
  intros c s; induction s as [|a s IH]; intros n; destruct n; simpl; try lia.
  specialize (IH n). lia.
Qed.

Lemma rfind_app : forall c p r,
  rfind c (p ++ r) = match rfind c r with
                     | Some i => Some (String.length p + i)%nat
                     | None => rfind c p
                     end.
Proof.
  intros c p r; induction p as [|a p IH]; simpl.
  - destruct (rfind c r); reflexivity.
  - rewrite IH. destruct (rfind c r); reflexivity.
Qed.

Lemma substring_app_prefix : forall p r n,
  substring 0 (String.length p + n) (p ++ r) = (p ++ substring 0 n r)%string.
Proof.
  induction p as [|a p IH]; intros r n; simpl; [reflexivity|].
  rewrite IH. reflexivity.
Qed.

(** The stem of a name that starts with ["pothole_"] starts with it too. *)
Lemma path_stem_pothole : forall filename r,
  path_name filename = ("pothole_" ++ r)%string ->
  exists r', path_stem filename = ("pothole_" ++ r')%string.
Proof.
  intros filename r H. unfold path_stem. rewrite H, rfind_app.
  destruct (rfind "."%char r) as [i|].
  - match goal with |- context [if ?b then _ else _] => destruct b end.
    + exists (substring 0 i r). apply substring_app_prefix.
    + exists r. reflexivity.
  - exists r. reflexivity.
Qed.

Lemma path_stem_count : forall filename,
  (count_char "_"%char (path_stem filename) <= count_char "_"%char (path_name filename))%nat.
Proof.
  intros filename. unfold path_stem.
  destruct (rfind "."%char (path_name filename)) as [i|]; [|lia].
  destruct (_ && _)%nat; [apply count_char_substring | lia].
Qed.

Lemma hd_split_pothole : forall r,
  hd "" (split_on "_"%char ("pothole_" ++ r)) = "pothole".
Proof. intros r. reflexivity. Qed.

(* ------------------------------------------------------------------ *)
(** * The image identifier resolver *)

(** C10: [extract_image_id] maps ["pothole_20251130_091234_567.jpg"] to
    ["20251130_091234_567"] and ["3736697343123377_1578561568299.jpg"] to
    ["3736697343123377"]; a base name that starts with ["pothole_"] but has
    fewer than four ["_"]-separated parts falls through to the part of the
    base name before the first ["_"]. *)
Theorem extract_image_id_conventions :
  extract_image_id "pothole_20251130_091234_567.jpg" = "20251130_091234_567" /\
  extract_image_id "3736697343123377_1578561568299.jpg" = "3736697343123377" /\
  (forall filename,
     String.prefix "pothole_" (path_name filename) = true ->
     (List.length (split_on "_"%char (path_name filename)) < 4)%nat ->
     extract_image_id filename = hd "" (split_on "_"%char (path_name filename))).
Proof.
  split; [reflexivity|]. split; [reflexivity|].
  intros filename Hpre Hlen.
  destruct (prefix_app _ _ Hpre) as [r Hr].
  destruct (path_stem_pothole filename r Hr) as [r' Hs].
  pose proof (path_stem_count filename) as Hc.
  rewrite !split_on_length in *.
  unfold extract_image_id. rewrite Hs in *. rewrite prefix_app_true.
  rewrite split_on_length.
  replace (4 <=? S (count_char "_" ("pothole_" ++ r')))%nat with false
    by (symmetry; apply Nat.leb_gt; lia).
  rewrite Hr, !hd_split_pothole. reflexivity.
Qed.

Lemma extract_image_id_conventions_witness :
  String.prefix "pothole_" (path_name "pothole_x.jpg") = true /\
  (List.length (split_on "_"%char (path_name "pothole_x.jpg")) < 4)%nat /\
  extract_image_id "pothole_x.jpg" = hd "" (split_on "_"%char (path_name "pothole_x.jpg")).
Proof.
  refine (conj eq_refl (conj _ _)).
  - vm_compute. lia.
  - apply (proj2 (proj2 extract_image_id_conventions)); [reflexivity | vm_compute; lia].
Defined.

(* ------------------------------------------------------------------ *)
(** * The incremental processing policy *)

(** C6 (counterexample): with the session's first run done, a crowd-upload
    image ["a.jpg"] whose counterpart ["a_detected.jpg"] exists is selected
    again, because ["b.jpg"] has no counterpart. *)
Lemma images_to_process_keeps_processed :
  detected_name "a.jpg" = "a_detected.jpg" /\
  In (detected_name "a.jpg") ["a_detected.jpg"] /\
  In "a.jpg" (images_to_process true false [] true ["a.jpg"; "b.jpg"] ["a_detected.jpg"]).
Proof.
  split; [reflexivity|]. split; [left; reflexivity|].
  vm_compute. left. reflexivity.
Qed.


(* ------------------------------------------------------------------ *)
(** * Lemmas: dictionaries *)














(* ------------------------------------------------------------------ *)
(** * The metadata store *)

(** C5 (failing input): an unparsable pre-loaded metadata file makes the
    metadata map raise although the crowd-upload file has an entry. *)
Lemma run_metadata_map_unparsable_aborts :
  load_metadata (SrcJson (JArr [JObj [("id", JStr "x")]]))
    = Ok [(KStr "x", JObj [("id", JStr "x")])] /\
  run_metadata_map SrcUnparsable (SrcJson (JArr [JObj [("id", JStr "x")]]))
    = Raise JSONDecodeError.
Proof. split; reflexivity. Qed.



(* ------------------------------------------------------------------ *)
(** * Lemmas: grouping by label *)

Lemma assoc_get_add : forall k k' s d,
  assoc_get k (add_confidence k' s d) =
  if Z.eqb k' k then Some (match assoc_get k d with Some v => (v ++ [s])%list | None => [s] end)
  else assoc_get k d.
Proof.
  intros k k' s d. induction d as [|[k0 v0] d IH]; simpl.
  - reflexivity.
  - destruct (Z.eqb k0 k') eqn:E0; simpl.
    + apply Z.eqb_eq in E0. subst k0. destruct (Z.eqb k' k); reflexivity.
    + rewrite IH. destruct (Z.eqb k0 k) eqn:E1, (Z.eqb k' k) eqn:E2; try reflexivity.
      apply Z.eqb_eq in E1, E2. subst. rewrite Z.eqb_refl in E0. discriminate.
Qed.

Lemma add_confidence_keys : forall k s d,
  map fst (add_confidence k s d) =
  if existsb (Z.eqb k) (map fst d) then map fst d else (map fst d ++ [k])%list.
Proof.
  intros k s d. induction d as [|[k0 v0] d IH]; simpl; [reflexivity|].
  rewrite (Z.eqb_sym k k0). destruct (Z.eqb k0 k) eqn:E; simpl; [reflexivity|].
  rewrite IH. destruct (existsb _ _); reflexivity.
Qed.

Lemma add_confidence_nodup : forall k s d,
  NoDup (map fst d) -> NoDup (map fst (add_confidence k s d)).
Proof.
  intros k s d H. rewrite add_confidence_keys.
  destruct (existsb (Z.eqb k) (map fst d)) eqn:E; [exact H|].
  apply NoDup_app; [exact H | repeat constructor; intros [] |].
  intros a Ha [Heq|[]]. subst a. assert (existsb (Z.eqb k) (map fst d) = true) as Ht.
  { apply existsb_exists. exists k. split; [exact Ha | apply Z.eqb_refl]. }
  congruence.
Qed.

Lemma add_confidence_sizes : forall k s d,
  list_sum (group_sizes (add_confidence k s d)) = S (list_sum (group_sizes d)).
Proof.
  intros k s d. unfold group_sizes.
  induction d as [|[k0 v0] d IH]; simpl; [reflexivity|].
  destruct (Z.eqb k0 k); simpl.
  - rewrite length_app. simpl. lia.
  - rewrite IH. lia.
Qed.

Lemma label_confidences_snoc : forall l x,
  label_confidences (l ++ [x]) = add_confidence (py_int (fst x)) (snd x) (label_confidences l).
Proof. intros l x. unfold label_confidences. rewrite fold_left_app. reflexivity. Qed.

Lemma group_snoc : forall k l x,
  group k (l ++ [x]) = (group k l ++ (if Z.eqb (py_int (fst x)) k then [snd x] else []))%list.
Proof.
  intros k l x. unfold group. rewrite filter_app, map_app. simpl.
  destruct (Z.eqb (py_int (fst x)) k); reflexivity.
Qed.

(** What [label_confidences] holds after the loop. *)
Lemma label_confidences_spec : forall l,
  (forall k, assoc_get k (label_confidences l) =
             match group k l with [] => None | g => Some g end) /\
  NoDup (map fst (label_confidences l)) /\
  list_sum (group_sizes (label_confidences l)) = List.length l.
Proof.
  induction l as [|x l IH] using rev_ind.
  - split; [reflexivity|]. split; [constructor | reflexivity].
  - destruct IH as [Hget [Hnd Hsum]]. rewrite label_confidences_snoc.
    split; [|split].
    + intros k. rewrite assoc_get_add, Hget, group_snoc.
      rewrite (Z.eqb_sym (py_int (fst x)) k).
      destruct (Z.eqb k (py_int (fst x))); [|rewrite app_nil_r; reflexivity].
      destruct (group k l); reflexivity.
    + apply add_confidence_nodup, Hnd.
    + rewrite add_confidence_sizes, Hsum, length_app. simpl. lia.
Qed.

Lemma assoc_get_in : forall k d v, NoDup (map fst d) -> In (k, v) d -> assoc_get k d = Some v.
Proof.
  intros k d v. induction d as [|[k0 v0] d IH]; simpl; intros Hnd Hin; [contradiction|].
  inversion Hnd as [|? ? Hnotin Hnd']; subst.
  destruct Hin as [Heq|Hin].
  - injection Heq as -> ->. rewrite Z.eqb_refl. reflexivity.
  - destruct (Z.eqb k0 k) eqn:E.
    + apply Z.eqb_eq in E. subst. exfalso. apply Hnotin.
      apply (in_map fst) in Hin. exact Hin.
    + apply IH; assumption.
Qed.

Lemma assoc_get_some_in : forall k d v, assoc_get k d = Some v -> In (k, v) d.
Proof.
  intros k d v. induction d as [|[k0 v0] d IH]; simpl; [discriminate|].
  destruct (Z.eqb k0 k) eqn:E; intros H.
  - injection H as <-. apply Z.eqb_eq in E. subst. left. reflexivity.
  - right. apply IH, H.
Qed.

(** The entries of [label_confidences]: each label's group, never empty. *)
Lemma label_confidences_entry : forall l k v,
  In (k, v) (label_confidences l) -> v = group k l /\ v <> [].
Proof.
  intros l k v Hin. destruct (label_confidences_spec l) as [Hget [Hnd _]].
  pose proof (assoc_get_in _ _ _ Hnd Hin) as H. rewrite Hget in H.
  destruct (group k l) as [|g gs]; [discriminate|]. injection H as <-.
  split; [reflexivity | discriminate].
Qed.

Lemma label_confidences_complete : forall l x,
  In x l -> In (py_int (fst x), group (py_int (fst x)) l) (label_confidences l).
Proof.
  intros l x Hx. destruct (label_confidences_spec l) as [Hget _].
  apply assoc_get_some_in. rewrite Hget.
  assert (In (snd x) (group (py_int (fst x)) l)) as Hg.
  { unfold group. apply in_map. apply filter_In. split; [exact Hx | apply Z.eqb_refl]. }
  destruct (group (py_int (fst x)) l); [contradiction | reflexivity].
Qed.

(* ------------------------------------------------------------------ *)
(** * Lemmas: sorting the groups and their statistics *)

Lemma insert_item_perm : forall it l, Permutation (insert_item it l) (it :: l).
Proof.
  intros it l. induction l as [|x l IH]; simpl; [reflexivity|].
  destruct (Z.leb (fst it) (fst x)); [reflexivity|].
  rewrite IH. apply perm_swap.
Qed.

Lemma sort_items_perm : forall l, Permutation (sort_items l) l.
Proof.
  induction l as [|x l IH]; simpl; [reflexivity|].
  rewrite insert_item_perm, IH. reflexivity.
Qed.

Lemma insert_item_hd : forall a it l,
  HdRel key_le a l -> key_le a it -> HdRel key_le a (insert_item it l).
Proof.
  intros a it [|x l] Hhd Hle; simpl; [constructor; exact Hle|].
  destruct (Z.leb (fst it) (fst x)); constructor; [exact Hle|].
  inversion Hhd; assumption.
Qed.

Lemma insert_item_sorted : forall it l, Sorted key_le l -> Sorted key_le (insert_item it l).
Proof.
  intros it l H. induction H as [|x l Hs IH Hhd]; simpl.
  - repeat constructor.
  - destruct (Z.leb (fst it) (fst x)) eqn:E.
    + constructor; [constructor; [exact Hs | exact Hhd]|]. constructor. apply Z.leb_le, E.
    + constructor; [exact IH|]. apply insert_item_hd; [exact Hhd|].
      unfold key_le. apply Z.leb_gt in E. lia.
Qed.

Lemma sort_items_sorted : forall l, Sorted key_le (sort_items l).
Proof.
  induction l as [|x l IH]; simpl; [constructor|]. apply insert_item_sorted, IH.
Qed.

Lemma sorted_keys : forall l, Sorted key_le l -> Sorted Z.le (map fst l).
Proof.
  intros l H. induction H as [|x l Hs IH Hhd]; simpl; constructor; [exact IH|].
  destruct Hhd; simpl; constructor. exact H.
Qed.

Lemma strongly_sorted_strict : forall l,
  StronglySorted Z.le l -> NoDup l -> StronglySorted Z.lt l.
Proof.
  intros l H. induction H as [|a l Hs IH Hf]; intros Hnd; constructor.
  - apply IH. inversion Hnd; assumption.
  - inversion Hnd as [|? ? Hnotin _]; subst.
    rewrite Forall_forall in *. intros x Hx. specialize (Hf x Hx).
    assert (a <> x) by (intros <-; contradiction). lia.
Qed.

Lemma sort_items_keys : forall d, NoDup (map fst d) ->
  StronglySorted Z.lt (map fst (sort_items d)).
Proof.
  intros d Hnd. apply strongly_sorted_strict.
  - apply Sorted_StronglySorted; [intros x y z; lia|].
    apply sorted_keys, sort_items_sorted.
  - eapply Permutation_NoDup; [|exact Hnd].
    apply Permutation_map. symmetry. apply sort_items_perm.
Qed.

Lemma label_stat_ok : forall k v, v <> [] ->
  exists ls, label_stat (k, v) = Ok ls /\ label ls = k /\ count ls = List.length v /\
    avg_confidence ls = round4 (qsum v / inject_Z (Z.of_nat (List.length v))) /\
    (exists mn, qmin v = Ok mn /\ min_confidence ls = round4 mn) /\
    (exists mx, qmax v = Ok mx /\ max_confidence ls = round4 mx).
Proof.
  intros k [|x v] H; [contradiction|].
  eexists. split; [reflexivity|].
  simpl. repeat split; eexists; split; reflexivity.
Qed.

Lemma map_outcome_ok : forall {A B} (f : A -> outcome B) xs,
  (forall x, In x xs -> exists y, f x = Ok y) ->
  exists ys, map_outcome f xs = Ok ys /\ Forall2 (fun x y => f x = Ok y) xs ys.
Proof.
  intros A B f xs. induction xs as [|x xs IH]; intros H; simpl.
  - exists []. split; constructor.
  - destruct (H x (or_introl eq_refl)) as [y Hy].
    destruct IH as [ys [Hys Hf]]; [intros z Hz; apply H; right; exact Hz|].
    exists (y :: ys). rewrite Hy. simpl. rewrite Hys. simpl.
    split; [reflexivity | constructor; assumption].
Qed.

Lemma Forall2_in_r : forall {A B} (P : A -> B -> Prop) xs ys y,
  Forall2 P xs ys -> In y ys -> exists x, In x xs /\ P x y.
Proof.
  intros A B P xs ys y H. induction H as [|x y' xs ys Hp Hf IH]; simpl; [contradiction|].
  intros [<-|Hin]; [exists x; split; [left; reflexivity | exact Hp]|].
  destruct (IH Hin) as [x' [Hx' Hp']]. exists x'. split; [right; exact Hx' | exact Hp'].
Qed.

Lemma Forall2_map_eq : forall {A B C} (P : A -> B -> Prop) (g : B -> C) (h : A -> C) xs ys,
  Forall2 P xs ys -> (forall x y, P x y -> g y = h x) -> map g ys = map h xs.
Proof.
  intros A B C P g h xs ys H Hgh. induction H; simpl; [reflexivity|].
  f_equal; [apply Hgh; assumption | exact IHForall2].
Qed.

Lemma fold_add_list_sum : forall xs a, fold_left Nat.add xs a = (a + list_sum xs)%nat.
Proof.
  induction xs as [|x xs IH]; intros a; simpl; [lia|]. rewrite IH. lia.
Qed.

Lemma nsum_list_sum : forall xs, nsum xs = list_sum xs.
Proof. intros xs. unfold nsum. rewrite fold_add_list_sum. reflexivity. Qed.

Lemma Forall2_in_l : forall {A B} (P : A -> B -> Prop) xs ys x,
  Forall2 P xs ys -> In x xs -> exists y, In y ys /\ P x y.
Proof.
  intros A B P xs ys x H. induction H as [|x' y xs ys Hp Hf IH]; simpl; [contradiction|].
  intros [<-|Hin]; [exists y; split; [left; reflexivity | exact Hp]|].
  destruct (IH Hin) as [y' [Hy' Hp']]. exists y'. split; [right; exact Hy' | exact Hp'].
Qed.

Lemma label_stat_props : forall k v ls, label_stat (k, v) = Ok ls ->
  label ls = k /\ count ls = List.length v /\
  avg_confidence ls = round4 (qsum v / inject_Z (Z.of_nat (List.length v))) /\
  (exists mn, qmin v = Ok mn /\ min_confidence ls = round4 mn) /\
  (exists mx, qmax v = Ok mx /\ max_confidence ls = round4 mx).
Proof.
  intros k [|x v] ls H; simpl in H; [discriminate|]. injection H as <-.
  simpl. repeat split; eexists; split; reflexivity.
Qed.

(** The per-label statistics of [save_detections_to_json]. *)
Lemma labels_info_spec : forall filtered,
  exists info, labels_info filtered = Ok info /\
    StronglySorted Z.lt (map label info) /\
    (forall ls, In ls info -> stat_of_group filtered ls) /\
    (forall d, In d filtered -> exists ls, In ls info /\ label ls = py_int (fst d)) /\
    nsum (map count info) = List.length filtered.
Proof.
  intros filtered. unfold labels_info.
  destruct (label_confidences_spec filtered) as [_ [Hnd Hsum]].
  pose proof (sort_items_perm (label_confidences filtered)) as Hperm.
  destruct (map_outcome_ok label_stat (sort_items (label_confidences filtered)))
    as [info [Hinfo Hf2]].
  { intros [k v] Hin. apply (Permutation_in _ Hperm) in Hin.
    destruct (label_confidences_entry _ _ _ Hin) as [_ Hne].
    destruct (label_stat_ok k v Hne) as [ls [Hls _]]. exists ls. exact Hls. }
  exists info. split; [exact Hinfo|].
  assert (Hlab : map label info = map fst (sort_items (label_confidences filtered))).
  { apply (Forall2_map_eq _ _ _ _ _ Hf2). intros [k v] ls H.
    apply label_stat_props in H. apply H. }
  assert (Hcnt : map count info = group_sizes (sort_items (label_confidences filtered))).
  { apply (Forall2_map_eq _ _ _ _ _ Hf2). intros [k v] ls H.
    apply label_stat_props in H. apply H. }
  split; [rewrite Hlab; apply sort_items_keys, Hnd|].
  split; [|split].
  - intros ls Hls. destruct (Forall2_in_r _ _ _ _ Hf2 Hls) as [[k v] [Hin Hst]].
    apply (Permutation_in _ Hperm) in Hin.
    destruct (label_confidences_entry _ _ _ Hin) as [Hv Hne].
    destruct (label_stat_props _ _ _ Hst) as [Hl Hrest].
    unfold stat_of_group. rewrite Hl, <- Hv. split; [exact Hne | exact Hrest].
  - intros d Hd. apply label_confidences_complete in Hd.
    apply (Permutation_in _ (Permutation_sym Hperm)) in Hd.
    destruct (Forall2_in_l _ _ _ _ Hf2 Hd) as [ls [Hls Hst]].
    exists ls. split; [exact Hls|]. apply label_stat_props in Hst. apply Hst.
  - rewrite nsum_list_sum, Hcnt, <- Hsum. unfold group_sizes.
    apply Permutation_list_sum, Permutation_map, Hperm.
Qed.

(* ------------------------------------------------------------------ *)
(** * Lemmas: metadata lookup, summary, collection *)

Lemma obj_get_fold_none : forall k kvs (acc : option json),
  fold_left (fun acc (kv : string * json) => if String.eqb (fst kv) k then Some (snd kv) else acc) kvs acc = None <->
  acc = None /\ existsb (fun kv => String.eqb (fst kv) k) kvs = false.
Proof.
  intros k kvs. induction kvs as [|kv kvs IH]; intros acc; simpl; [tauto|].
  rewrite IH. destruct (String.eqb (fst kv) k); simpl; [|tauto].
  split; [intros [H _]; discriminate | intros [_ H]; discriminate].
Qed.

Lemma py_contains_obj : forall k kvs v, obj_get k kvs = Some v ->
  py_contains k (JObj kvs) = Ok true.
Proof.
  intros k kvs v H. simpl. f_equal.
  destruct (existsb _ kvs) eqn:E; [reflexivity|].
  unfold obj_get in H. assert (Hn : @None json = None /\ existsb (fun kv => String.eqb (fst kv) k) kvs = false)
    by (split; [reflexivity | exact E]).
  apply obj_get_fold_none in Hn. congruence.
Qed.

Lemma py_contains_obj_absent : forall k kvs, obj_get k kvs = None ->
  py_contains k (JObj kvs) = Ok false.
Proof.
  intros k kvs H. simpl. f_equal. unfold obj_get in H.
  apply obj_get_fold_none in H. apply H.
Qed.

Lemma find_coordinates_found : forall iid mm kvs g lon lat rest,
  dict_get (KStr iid) mm = Some (JObj kvs) ->
  obj_get "geometry" kvs = Some (JObj g) ->
  obj_get "coordinates" g = Some (JArr (lon :: lat :: rest)) ->
  find_coordinates iid mm = Ok (Some (lon, lat)).
Proof.
  intros iid mm kvs g lon lat rest Hm Hg Hc. unfold find_coordinates. rewrite Hm.
  rewrite (py_contains_obj _ _ _ Hg). cbn [bind py_getitem_str]. rewrite Hg.
  cbn [bind]. rewrite (py_contains_obj _ _ _ Hc). cbn [bind py_getitem_str].
  rewrite Hc. reflexivity.
Qed.

Lemma all_label_stats_app : forall fs gs,
  all_label_stats (fs ++ gs) = (all_label_stats fs ++ all_label_stats gs)%list.
Proof. intros fs gs. unfold all_label_stats. apply flat_map_app. Qed.

(** The summary succeeds on a collection whose label entries are not all
    empty and count something. *)
Lemma summary_of_ok : forall fs,
  all_label_stats fs <> [] -> nsum (map count (all_label_stats fs)) <> 0%nat ->
  exists s, summary_of fs = Ok s.
Proof.
  intros fs Hne Hpos. unfold summary_of.
  destruct fs as [|f fs]; [contradiction Hne; reflexivity|].
  destruct (all_label_stats (f :: fs)) as [|l ls] eqn:E; [contradiction Hne; reflexivity|].
  simpl map. cbv [qmin qmax bind].
  destruct (nsum (count l :: map count ls) =? 0)%nat eqn:Z0.
  - apply Nat.eqb_eq in Z0. contradiction.
  - eexists. reflexivity.
Qed.

(** What the summary holds. *)
Lemma summary_of_props : forall fs s, summary_of fs = Ok s ->
  total_images s = List.length fs /\
  unique_labels s = sorted_set (map label (all_label_stats fs)) /\
  total_detections s = nsum (map count (all_label_stats fs)) /\
  (fs <> [] ->
   conf_avg s = round4 (qsum (map (fun l => avg_confidence l * inject_Z (Z.of_nat (count l)))
                                  (all_label_stats fs))
                        / inject_Z (Z.of_nat (nsum (map count (all_label_stats fs)))))).
Proof.
  intros fs s H. unfold summary_of in H.
  destruct fs as [|f fs].
  - simpl in H. injection H as <-. simpl. repeat split. intros C. exfalso. exact (C eq_refl).
  - destruct (qmin _) as [mn|e]; simpl in H; [|discriminate].
    destruct (qmax _) as [mx|e]; simpl in H; [|discriminate].
    destruct (_ =? 0)%nat; simpl in H; [discriminate|].
    injection H as <-. simpl. repeat split.
Qed.

Lemma insert_uniq_in : forall a l x, In x (insert_uniq a l) <-> a = x \/ In x l.
Proof.
  intros a l x. induction l as [|y l IH]; simpl; [tauto|].
  destruct (a <? y)%Z; simpl; [tauto|].
  destruct (a =? y)%Z eqn:E; simpl.
  - apply Z.eqb_eq in E. subst. tauto.
  - rewrite IH. tauto.
Qed.

Lemma insert_uniq_hd : forall a b l,
  HdRel Z.lt b l -> (b < a)%Z -> HdRel Z.lt b (insert_uniq a l).
Proof.
  intros a b [|y l] Hhd Hlt; simpl; [constructor; exact Hlt|].
  destruct (a <? y)%Z; [constructor; exact Hlt|].
  destruct (a =? y)%Z; [exact Hhd|]. constructor. inversion Hhd; assumption.
Qed.

Lemma insert_uniq_sorted : forall a l, Sorted Z.lt l -> Sorted Z.lt (insert_uniq a l).
Proof.
  intros a l H. induction H as [|y l Hs IH Hhd]; simpl; [repeat constructor|].
  destruct (a <? y)%Z eqn:E1.
  - constructor; [constructor; assumption|]. constructor. apply Z.ltb_lt, E1.
  - destruct (a =? y)%Z eqn:E2; [constructor; assumption|].
    constructor; [exact IH|]. apply insert_uniq_hd; [exact Hhd|].
    apply Z.ltb_ge in E1. apply Z.eqb_neq in E2. lia.
Qed.

Lemma sorted_set_spec : forall l,
  StronglySorted Z.lt (sorted_set l) /\ (forall x, In x (sorted_set l) <-> In x l).
Proof.
  intros l. split.
  - apply Sorted_StronglySorted; [intros x y z; lia|].
    induction l as [|a l IH]; simpl; [constructor|]. apply insert_uniq_sorted, IH.
  - induction l as [|a l IH]; intros x; simpl; [tauto|].
    rewrite insert_uniq_in, IH. reflexivity.
Qed.

(** Any feature built by [save_detections_to_json]. *)
Lemma build_feature_inv : forall image_path boxes lbls scores mm threshold f,
  build_feature image_path boxes lbls scores mm threshold = Ok (Some f) ->
  let filtered := filter_detections lbls scores threshold in
  filtered <> [] /\
  StronglySorted Z.lt (map label (labels f)) /\
  (forall ls, In ls (labels f) -> stat_of_group filtered ls) /\
  (forall d, In d filtered -> exists ls, In ls (labels f) /\ label ls = py_int (fst d)) /\
  nsum (map count (labels f)) = List.length filtered /\
  image_id f = extract_image_id (path_name image_path).
Proof.
  intros image_path boxes lbls scores mm threshold f H filtered.
  unfold build_feature in H. fold filtered in H.
  destruct filtered as [|d0 ds] eqn:Ef; [discriminate|].
  destruct (find_coordinates _ _) as [[[lon lat]|]|e]; cbn [bind] in H; try discriminate.
  destruct (is_none lat || is_none lon); [discriminate|].
  destruct (labels_info_spec (d0 :: ds)) as [info [Hinfo Hspec]].
  rewrite Hinfo in H. cbn [bind] in H. injection H as <-. cbn [labels image_id].
  destruct Hspec as [H1 [H2 [H3 H4]]].
  split; [discriminate|]. split; [exact H1|]. split; [exact H2|].
  split; [exact H3|]. split; [exact H4 | reflexivity].
Qed.

Lemma built_labels_nonempty : forall image_path boxes lbls scores mm threshold f,
  build_feature image_path boxes lbls scores mm threshold = Ok (Some f) ->
  labels f <> [] /\ nsum (map count (labels f)) <> 0%nat.
Proof.
  intros image_path boxes lbls scores mm threshold f H.
  destruct (build_feature_inv _ _ _ _ _ _ _ H) as [Hne [_ [_ [Hcov [Hsum _]]]]].
  destruct (filter_detections lbls scores threshold) as [|d ds]; [contradiction Hne; reflexivity|].
  split.
  - destruct (Hcov d (or_introl eq_refl)) as [ls [Hls _]]. destruct (labels f); [contradiction|discriminate].
  - rewrite Hsum. discriminate.
Qed.

(** Appending a built feature to a collection that has a feature list. *)
Lemma save_of_built : forall image_path boxes lbls scores mm threshold f file fs,
  build_feature image_path boxes lbls scores mm threshold = Ok (Some f) ->
  col_features (load_collection file) = Some fs ->
  exists s, summary_of (fs ++ [f]) = Ok s /\
    save_detections_to_json image_path boxes lbls scores mm threshold file =
    Ok (Some f, FObject {| col_type := col_type (load_collection file);
                           col_features := Some (fs ++ [f])%list;
                           col_summary := Some s |}).
Proof.
  intros image_path boxes lbls scores mm threshold f file fs Hb Hf.
  destruct (built_labels_nonempty _ _ _ _ _ _ _ Hb) as [Hne Hpos].
  destruct (summary_of_ok (fs ++ [f])) as [s Hs].
  - rewrite all_label_stats_app. simpl. rewrite app_nil_r.
    destruct (labels f); [contradiction|]. destruct (all_label_stats fs); discriminate.
  - rewrite all_label_stats_app, map_app, nsum_list_sum, list_sum_app.
    simpl. rewrite app_nil_r. rewrite nsum_list_sum in Hpos. lia.
  - exists s. split; [exact Hs|]. unfold save_detections_to_json.
    rewrite Hb. cbn [bind]. rewrite Hf. cbn [bind]. rewrite Hs. reflexivity.
Qed.

Lemma build_feature_found : forall image_path boxes lbls scores mm threshold kvs g lon lat rest,
  filter_detections lbls scores threshold <> [] ->
  dict_get (KStr (extract_image_id (path_name image_path))) mm = Some (JObj kvs) ->
  obj_get "geometry" kvs = Some (JObj g) ->
  obj_get "coordinates" g = Some (JArr (lon :: lat :: rest)) ->
  is_none lon = false -> is_none lat = false ->
  exists f, build_feature image_path boxes lbls scores mm threshold = Ok (Some f) /\
            longitude f = lon /\ latitude f = lat.
Proof.
  intros image_path boxes lbls scores mm threshold kvs g lon lat rest Hne Hm Hg Hc Hlon Hlat.
  unfold build_feature.
  destruct (filter_detections lbls scores threshold) as [|d ds]; [contradiction Hne; reflexivity|].
  rewrite (find_coordinates_found _ _ _ _ _ _ _ Hm Hg Hc). cbn [bind].
  rewrite Hlon, Hlat. simpl orb.
  destruct (labels_info_spec (d :: ds)) as [info [Hinfo _]]. rewrite Hinfo. cbn [bind].
  eexists. split; [reflexivity|]. split; reflexivity.
Qed.

(* ------------------------------------------------------------------ *)
(** * The aggregation engine *)

(** C1: when some detection has [score >= threshold] and the resolved image
    id maps to a metadata record with geometry coordinates,
    [save_detections_to_json] builds a report (returned whenever the
    collection file has a feature list to append to) whose labels are
    strictly ascending, each with its group's count and its mean, minimum
    and maximum score rounded to four decimals, and whose counts add up to
    the number of detections with [score >= threshold]. *)
Theorem save_detections_report :
  forall image_path boxes lbls scores mm threshold kvs g lon lat rest,
  filter_detections lbls scores threshold <> [] ->
  dict_get (KStr (extract_image_id (path_name image_path))) mm = Some (JObj kvs) ->
  obj_get "geometry" kvs = Some (JObj g) ->
  obj_get "coordinates" g = Some (JArr (lon :: lat :: rest)) ->
  is_none lon = false -> is_none lat = false ->
  exists f,
    build_feature image_path boxes lbls scores mm threshold = Ok (Some f) /\
    (forall file, has_features file = true ->
       exists file', save_detections_to_json image_path boxes lbls scores mm threshold file
                     = Ok (Some f, file')) /\
    StronglySorted Z.lt (map label (labels f)) /\
    (forall ls, In ls (labels f) -> stat_of_group (filter_detections lbls scores threshold) ls) /\
    nsum (map count (labels f)) = List.length (filter_detections lbls scores threshold).
Proof.
  intros image_path boxes lbls scores mm threshold kvs g lon lat rest Hne Hm Hg Hc Hlon Hlat.
  destruct (build_feature_found image_path boxes lbls scores mm threshold kvs g lon lat rest
              Hne Hm Hg Hc Hlon Hlat) as [f [Hb _]].
  destruct (build_feature_inv _ _ _ _ _ _ _ Hb) as [_ [Hsort [Hstat [_ [Hsum _]]]]].
  exists f. split; [exact Hb|]. split.
  - intros file Hfile. unfold has_features in Hfile.
    destruct (col_features (load_collection file)) as [fs|] eqn:Ef; [|discriminate].
    destruct (save_of_built _ _ _ _ _ _ _ _ _ Hb Ef) as [s [_ Hs]].
    eexists. exact Hs.
  - split; [exact Hsort|]. split; [exact Hstat | exact Hsum].
Qed.

Lemma save_detections_report_witness :
  filter_detections [3; 1; 3] [8 # 10; 1 # 10; 1 # 2] (1 # 2) <> [] /\
  dict_get (KStr (extract_image_id (path_name "img/abc_1.jpg"))) example_metadata
    = Some (JObj [("geometry", JObj [("coordinates", JArr [JNum 12; JNum 45])])]) /\
  exists f,
    build_feature "img/abc_1.jpg" [] [3; 1; 3] [8 # 10; 1 # 10; 1 # 2] example_metadata (1 # 2)
      = Ok (Some f) /\
    (forall file, has_features file = true ->
       exists file', save_detections_to_json "img/abc_1.jpg" [] [3; 1; 3] [8 # 10; 1 # 10; 1 # 2]
                       example_metadata (1 # 2) file = Ok (Some f, file')) /\
    StronglySorted Z.lt (map label (labels f)) /\
    (forall ls, In ls (labels f) ->
       stat_of_group (filter_detections [3; 1; 3] [8 # 10; 1 # 10; 1 # 2] (1 # 2)) ls) /\
    nsum (map count (labels f))
      = List.length (filter_detections [3; 1; 3] [8 # 10; 1 # 10; 1 # 2] (1 # 2)).
Proof.
  split; [vm_compute; discriminate|]. split; [reflexivity|].
  apply (save_detections_report "img/abc_1.jpg" [] [3; 1; 3] [8 # 10; 1 # 10; 1 # 2]
           example_metadata (1 # 2) [("geometry", JObj [("coordinates", JArr [JNum 12; JNum 45])])]
           [("coordinates", JArr [JNum 12; JNum 45])] (JNum 12) (JNum 45) []);
    try reflexivity; vm_compute; discriminate.
Defined.

Lemma dict_get_value_in : forall k d v, dict_get k d = Some v -> exists k', In (k', v) d.
Proof.
  intros k d v. induction d as [|[k0 v0] d IH]; simpl; [discriminate|].
  destruct (key_eqb k0 k); intros H.
  - injection H as <-. exists k0. left. reflexivity.
  - destruct (IH H) as [k' Hin]. exists k'. right. exact Hin.
Qed.

(** On well-formed metadata, [build_feature] never raises, and it builds a
    feature exactly when a report is expected. *)
Lemma build_feature_cases : forall image_path boxes lbls scores mm threshold,
  wf_metadata mm = true ->
  (build_feature image_path boxes lbls scores mm threshold = Ok None /\
   report_expected image_path lbls scores mm threshold = false) \/
  (exists f, build_feature image_path boxes lbls scores mm threshold = Ok (Some f) /\
   report_expected image_path lbls scores mm threshold = true).
Proof.
  intros image_path boxes lbls scores mm threshold Hwf.
  unfold build_feature, report_expected.
  destruct (filter_detections lbls scores threshold) as [|d ds] eqn:Ef;
    [left; split; reflexivity|].
  cbn [negb andb].
  unfold find_coordinates.
  destruct (dict_get (KStr (extract_image_id (path_name image_path))) mm) as [entry|] eqn:Em;
    [|left; split; reflexivity].
  assert (He : wf_entry entry = true).
  { destruct (dict_get_value_in _ _ _ Em) as [k' Hin].
    unfold wf_metadata in Hwf. rewrite forallb_forall in Hwf. apply (Hwf _ Hin). }
  destruct entry as [| | | | |kvs]; try discriminate He.
  unfold wf_entry in He. unfold has_coordinates.
  destruct (obj_get "geometry" kvs) as [geo|] eqn:Eg.
  2:{ rewrite (py_contains_obj_absent _ _ Eg). left. split; reflexivity. }
  rewrite (py_contains_obj _ _ _ Eg). cbn [bind py_getitem_str]. rewrite Eg. cbn [bind].
  destruct geo as [| | | | |g]; try discriminate He.
  destruct (obj_get "coordinates" g) as [coords|] eqn:Ec.
  2:{ rewrite (py_contains_obj_absent _ _ Ec). left. split; reflexivity. }
  rewrite (py_contains_obj _ _ _ Ec). cbn [bind py_getitem_str]. rewrite Ec.
  destruct coords as [| | | |[|[| | |lon| |] [|[| | |lat| |] rest]]|]; try discriminate He.
  cbn [bind py_getitem_int nth_error is_none orb].
  destruct (labels_info_spec (d :: ds)) as [info [Hinfo _]]. rewrite Hinfo. cbn [bind].
  right. eexists. split; reflexivity.
Qed.

(** C2: on metadata in the file format (coordinates, when present, are
    numbers), [save_detections_to_json] returns [None] exactly when no
    detection reaches the threshold or no record with geometry coordinates
    is found for the resolved id; it then leaves the collection file as it
    was, whatever its content; otherwise it never returns [None], and it
    returns the report whenever the collection file has a feature list. *)
Theorem save_detections_null_iff : forall image_path boxes lbls scores mm threshold,
  wf_metadata mm = true ->
  (report_expected image_path lbls scores mm threshold = false ->
   forall file, save_detections_to_json image_path boxes lbls scores mm threshold file
                = Ok (None, file)) /\
  (report_expected image_path lbls scores mm threshold = true ->
   (forall file file', save_detections_to_json image_path boxes lbls scores mm threshold file
                       <> Ok (None, file')) /\
   (forall file, has_features file = true ->
    exists f file', save_detections_to_json image_path boxes lbls scores mm threshold file
                    = Ok (Some f, file'))).
Proof.
  intros image_path boxes lbls scores mm threshold Hwf.
  destruct (build_feature_cases image_path boxes lbls scores mm threshold Hwf)
    as [[Hb He]|[f [Hb He]]]; rewrite He; split; try discriminate.
  - intros _ file. unfold save_detections_to_json. rewrite Hb. reflexivity.
  - intros _. split.
    + intros file file'. unfold save_detections_to_json. rewrite Hb. cbn [bind].
      destruct (col_features (load_collection file)); cbn [bind]; [|discriminate].
      destruct (summary_of _); cbn [bind]; discriminate.
    + intros file Hfile. unfold has_features in Hfile.
      destruct (col_features (load_collection file)) as [fs|] eqn:Ef; [|discriminate].
      destruct (save_of_built _ _ _ _ _ _ _ _ _ Hb Ef) as [s [_ Hs]].
      eexists. eexists. exact Hs.
Qed.

Lemma save_detections_null_iff_witness :
  wf_metadata example_metadata = true /\
  report_expected "img/abc_1.jpg" [3] [1 # 10] example_metadata (1 # 2) = false /\
  save_detections_to_json "img/abc_1.jpg" [] [3] [1 # 10] example_metadata (1 # 2) FUnreadable
    = Ok (None, FUnreadable).
Proof.
  split; [reflexivity|]. split; [reflexivity|].
  apply (proj1 (save_detections_null_iff "img/abc_1.jpg" [] [3] [1 # 10] example_metadata (1 # 2)
                  eq_refl) eq_refl).
Defined.

Lemma save_some_inv : forall image_path boxes lbls scores mm threshold file f file',
  save_detections_to_json image_path boxes lbls scores mm threshold file = Ok (Some f, file') ->
  build_feature image_path boxes lbls scores mm threshold = Ok (Some f) /\
  exists fs s, col_features (load_collection file) = Some fs /\
    summary_of (fs ++ [f]) = Ok s /\
    file' = FObject {| col_type := col_type (load_collection file);
                       col_features := Some (fs ++ [f])%list; col_summary := Some s |}.
Proof.
  intros image_path boxes lbls scores mm threshold file f file' H.
  unfold save_detections_to_json in H.
  destruct (build_feature _ _ _ _ _ _) as [[f0|]|e]; cbn [bind] in H; try discriminate.
  destruct (col_features (load_collection file)) as [fs|]; cbn [bind] in H; [|discriminate].
  destruct (summary_of (fs ++ [f0])) as [s|] eqn:Es; cbn [bind] in H; [|discriminate].
  injection H as <- <-. split; [reflexivity|]. exists fs, s. split; [reflexivity|].
  split; [exact Es | reflexivity].
Qed.

Lemma load_collection_type : forall file,
  is_feature_collection (col_type (load_collection file)) = true.
Proof.
  intros [| |c]; try reflexivity. simpl.
  destruct (is_feature_collection (col_type c)) eqn:E; [exact E | reflexivity].
Qed.

(** C3: after a call of [save_detections_to_json] that returns a report,
    the collection file holds a feature list [fs] and the summary
    [summary_of fs], computed from [fs] alone: its [total_images] is the
    length of [fs], its [total_detections] the sum of the counts of all
    label entries, and its [unique_labels] the strictly ascending list of
    the labels that occur. *)
Theorem save_detections_summary :
  forall image_path boxes lbls scores mm threshold file f file',
  save_detections_to_json image_path boxes lbls scores mm threshold file = Ok (Some f, file') ->
  exists fs s, features_of file' = Some fs /\ summary_in file' = Some s /\
    summary_of fs = Ok s /\
    total_images s = List.length fs /\
    total_detections s = nsum (map count (all_label_stats fs)) /\
    StronglySorted Z.lt (unique_labels s) /\
    (forall x, In x (unique_labels s) <-> In x (map label (all_label_stats fs))).
Proof.
  intros image_path boxes lbls scores mm threshold file f file' H.
  destruct (save_some_inv _ _ _ _ _ _ _ _ _ H) as [_ [fs [s [_ [Hs ->]]]]].
  exists (fs ++ [f])%list, s. split; [reflexivity|]. split; [reflexivity|].
  split; [exact Hs|].
  destruct (summary_of_props _ _ Hs) as [Hti [Hul [Htd _]]].
  split; [exact Hti|]. split; [exact Htd|].
  rewrite Hul. apply sorted_set_spec.
Qed.

Lemma save_detections_summary_witness :
  save_detections_to_json "img/abc_1.jpg" [] [3; 1; 3] [8 # 10; 1 # 10; 1 # 2]
    example_metadata (1 # 2) FAbsent = Ok (Some example_report, example_file) /\
  exists fs s, features_of example_file = Some fs /\ summary_in example_file = Some s /\
    summary_of fs = Ok s /\
    total_images s = List.length fs /\
    total_detections s = nsum (map count (all_label_stats fs)) /\
    StronglySorted Z.lt (unique_labels s) /\
    (forall x, In x (unique_labels s) <-> In x (map label (all_label_stats fs))).
Proof.
  split; [vm_compute; reflexivity|].
  apply (save_detections_summary "img/abc_1.jpg" [] [3; 1; 3] [8 # 10; 1 # 10; 1 # 2]
           example_metadata (1 # 2) FAbsent example_report).
  vm_compute. reflexivity.
Defined.

(** C4 (counterexample): in the spec's example (label 3 with average 0.8
    over two detections, then 0.6 over one), the collection-wide average is
    0.7333, not 0.733. *)
Lemma save_detections_avg_example :
  option_map (map (fun f => map (fun l => (label l, avg_confidence l, count l)) (labels f)))
    (match example_run with Ok (_, file) => features_of file | Raise _ => None end)
    = Some [[(3%Z, Qmake 8000 10000, 2%nat)]; [(3%Z, Qmake 6000 10000, 1%nat)]] /\
  option_map conf_avg (match example_run with Ok (_, file) => summary_in file | Raise _ => None end)
    = Some (Qmake 7333 10000) /\
  ~ (Qmake 7333 10000 == 733 # 1000).
Proof.
  split; [vm_compute; reflexivity|]. split; [vm_compute; reflexivity|].
  intros H. vm_compute in H. discriminate.
Qed.

(** C4 (amended): after a call that returns a report, the summary's average
    is [round(sum(avg_confidence * count) / sum(count), 4)] over every label
    entry of every feature, a count-weighted mean; in the spec's example it
    is [round(2.2 / 3, 4) = 0.7333], where the unweighted mean of the two
    averages would be 0.7. *)
Theorem save_detections_weighted_avg :
  (forall image_path boxes lbls scores mm threshold file f file',
   save_detections_to_json image_path boxes lbls scores mm threshold file = Ok (Some f, file') ->
   exists fs s, features_of file' = Some fs /\ summary_in file' = Some s /\
     conf_avg s =
       round4 (qsum (map (fun l => avg_confidence l * inject_Z (Z.of_nat (count l)))
                         (all_label_stats fs))
               / inject_Z (Z.of_nat (nsum (map count (all_label_stats fs)))))) /\
  option_map conf_avg (match example_run with Ok (_, file) => summary_in file | Raise _ => None end)
    = Some (round4 (((8 # 10) * 2 + (6 # 10) * 1) / 3)) /\
  round4 (((8 # 10) * 2 + (6 # 10) * 1) / 3) == 7333 # 10000.
Proof.
  split.
  - intros image_path boxes lbls scores mm threshold file f file' H.
    destruct (save_some_inv _ _ _ _ _ _ _ _ _ H) as [_ [fs [s [_ [Hs ->]]]]].
    exists (fs ++ [f])%list, s. split; [reflexivity|]. split; [reflexivity|].
    destruct (summary_of_props _ _ Hs) as [_ [_ [_ Havg]]]. apply Havg.
    destruct fs; discriminate.
  - split; vm_compute; reflexivity.
Qed.

Lemma save_detections_weighted_avg_witness :
  save_detections_to_json "img/abc_1.jpg" [] [3; 1; 3] [8 # 10; 1 # 10; 1 # 2]
    example_metadata (1 # 2) FAbsent = Ok (Some example_report, example_file) /\
  exists fs s, features_of example_file = Some fs /\ summary_in example_file = Some s /\
    conf_avg s =
      round4 (qsum (map (fun l => avg_confidence l * inject_Z (Z.of_nat (count l)))
                        (all_label_stats fs))
              / inject_Z (Z.of_nat (nsum (map count (all_label_stats fs))))).
Proof.
  split; [vm_compute; reflexivity|].
  apply (proj1 save_detections_weighted_avg "img/abc_1.jpg" [] [3; 1; 3] [8 # 10; 1 # 10; 1 # 2]
           example_metadata (1 # 2) FAbsent example_report).
  vm_compute. reflexivity.
Defined.

(** C7: a call that returns a report appends it to the feature list of a
    FeatureCollection; calling again with the same arguments on the file it
    left returns an equal report and appends it a second time, with no
    deduplication by image or image id. *)
Theorem save_detections_no_dedup : forall image_path boxes lbls scores mm threshold,
  (forall c fs f file',
     is_feature_collection (col_type c) = true -> col_features c = Some fs ->
     save_detections_to_json image_path boxes lbls scores mm threshold (FObject c)
       = Ok (Some f, file') ->
     features_of file' = Some (fs ++ [f])%list) /\
  (forall file f file1,
     save_detections_to_json image_path boxes lbls scores mm threshold file = Ok (Some f, file1) ->
     exists fs1 file2, features_of file1 = Some fs1 /\
       save_detections_to_json image_path boxes lbls scores mm threshold file1
         = Ok (Some f, file2) /\
       features_of file2 = Some (fs1 ++ [f])%list).
Proof.
  intros image_path boxes lbls scores mm threshold. split.
  - intros c fs f file' Hfc Hfs H.
    destruct (save_some_inv _ _ _ _ _ _ _ _ _ H) as [_ [fs' [s [Hl [_ ->]]]]].
    simpl in Hl. rewrite Hfc, Hfs in Hl. injection Hl as <-. reflexivity.
  - intros file f file1 H.
    destruct (save_some_inv _ _ _ _ _ _ _ _ _ H) as [Hb [fs [s [_ [_ ->]]]]].
    exists (fs ++ [f])%list.
    destruct (save_of_built image_path boxes lbls scores mm threshold f
                (FObject {| col_type := col_type (load_collection file);
                            col_features := Some (fs ++ [f])%list; col_summary := Some s |})
                (fs ++ [f])%list Hb) as [s2 [_ Hs2]].
    { simpl. rewrite load_collection_type. reflexivity. }
    eexists. split; [reflexivity|]. split; [exact Hs2 | reflexivity].
Qed.

Lemma save_detections_no_dedup_witness :
  save_detections_to_json "img/abc_1.jpg" [] [3; 1; 3] [8 # 10; 1 # 10; 1 # 2]
    example_metadata (1 # 2) FAbsent = Ok (Some example_report, example_file) /\
  exists fs1 file2, features_of example_file = Some fs1 /\
    save_detections_to_json "img/abc_1.jpg" [] [3; 1; 3] [8 # 10; 1 # 10; 1 # 2]
      example_metadata (1 # 2) example_file = Ok (Some example_report, file2) /\
    features_of file2 = Some (fs1 ++ [example_report])%list.
Proof.
  split; [vm_compute; reflexivity|].
  apply (proj2 (save_detections_no_dedup "img/abc_1.jpg" [] [3; 1; 3] [8 # 10; 1 # 10; 1 # 2]
                  example_metadata (1 # 2)) FAbsent).
  vm_compute. reflexivity.
Defined.

(** C9: when the collection file is absent, unreadable, not JSON, not an
    object, or an object whose ["type"] is not ["FeatureCollection"], the
    engine loads the empty collection and a report is written as the only
    feature of a fresh FeatureCollection. *)
Theorem save_detections_fresh_collection :
  forall image_path boxes lbls scores mm threshold f file,
  build_feature image_path boxes lbls scores mm threshold = Ok (Some f) ->
  (file = FAbsent \/ file = FUnreadable \/
   exists c, file = FObject c /\ is_feature_collection (col_type c) = false) ->
  load_collection file = empty_collection /\
  exists s, summary_of [f] = Ok s /\
    save_detections_to_json image_path boxes lbls scores mm threshold file =
    Ok (Some f, FObject {| col_type := Some (JStr "FeatureCollection");
                           col_features := Some [f]; col_summary := Some s |}).
Proof.
  intros image_path boxes lbls scores mm threshold f file Hb Hfile.
  assert (Hl : load_collection file = empty_collection).
  { destruct Hfile as [->|[->|[c [-> Hc]]]]; try reflexivity. simpl. rewrite Hc. reflexivity. }
  split; [exact Hl|].
  destruct (save_of_built image_path boxes lbls scores mm threshold f file [] Hb)
    as [s [Hs Hsave]].
  { rewrite Hl. reflexivity. }
  exists s. split; [exact Hs|]. rewrite Hsave, Hl. reflexivity.
Qed.

Lemma save_detections_fresh_collection_witness :
  build_feature "img/abc_1.jpg" [] [3; 1; 3] [8 # 10; 1 # 10; 1 # 2] example_metadata (1 # 2)
    = Ok (Some example_report) /\
  load_collection FUnreadable = empty_collection /\
  exists s, summary_of [example_report] = Ok s /\
    save_detections_to_json "img/abc_1.jpg" [] [3; 1; 3] [8 # 10; 1 # 10; 1 # 2]
      example_metadata (1 # 2) FUnreadable =
    Ok (Some example_report, FObject {| col_type := Some (JStr "FeatureCollection");
                                        col_features := Some [example_report];
                                        col_summary := Some s |}).
Proof.
  split; [vm_compute; reflexivity|].
  apply (save_detections_fresh_collection "img/abc_1.jpg" [] [3; 1; 3] [8 # 10; 1 # 10; 1 # 2]
           example_metadata (1 # 2) example_report FUnreadable).
  - vm_compute. reflexivity.
  - right. left. reflexivity.
Defined.

(* ------------------------------------------------------------------ *)
(** * Lemmas: the drawing loop *)

Lemma nth_error_zip : forall {A B} (xs : list A) (ys : list B) i x y,
  nth_error xs i = Some x -> nth_error ys i = Some y -> nth_error (zip xs ys) i = Some (x, y).
Proof.
  intros A B xs. induction xs as [|a xs IH]; intros ys i x y Hx Hy.
  - destruct i; discriminate.
  - destruct ys as [|b ys]; [destruct i; discriminate|].
    destruct i as [|i]; simpl in *.
    + injection Hx as ->. injection Hy as ->. reflexivity.
    + apply IH; assumption.
Qed.

Lemma draw_loop_indices : forall w h thr dets i prev ds,
  draw_loop w h thr i prev dets = Ok ds -> forall d, In d ds -> (i <= d_index d)%nat.
Proof.
  intros w h thr dets. induction dets as [|[[box lbl] sc] rest IH]; intros i prev ds H d Hd.
  - simpl in H. injection H as <-. destruct Hd.
  - simpl in H. destruct (qlt sc thr).
    + pose proof (IH _ _ _ H d Hd). lia.
    + destruct (match corners w h box with Some c => Some c | None => prev end)
        as [[[[x1 y1] x2] y2]|]; [|discriminate].
      destruct (match corners w h box with
                | Some _ => qlt (x2 - x1) 1 || qlt (y2 - y1) 1 | None => false end).
      * pose proof (IH _ _ _ H d Hd). lia.
      * destruct (draw_loop w h thr (S i) _ rest) as [ds'|e] eqn:E; [|discriminate].
        simpl in H. injection H as <-. destruct Hd as [<-|Hd]; [simpl; lia|].
        pose proof (IH _ _ _ E d Hd). lia.
Qed.

Lemma draw_loop_skips : forall w h thr dets k i prev ds box lbl sc x1 y1 x2 y2,
  draw_loop w h thr i prev dets = Ok ds ->
  nth_error dets k = Some (box, lbl, sc) ->
  qlt sc thr = false ->
  corners w h box = Some (x1, y1, x2, y2) ->
  (qlt (x2 - x1) 1 || qlt (y2 - y1) 1) = true ->
  ~ In (i + k)%nat (map d_index ds).
Proof.
  intros w h thr dets. induction dets as [|[[box' lbl'] sc'] rest IH];
    intros k i prev ds box lbl sc x1 y1 x2 y2 H Hk Hsc Hc Hdeg.
  - destruct k; discriminate.
  - destruct k as [|k].
    + simpl in Hk. injection Hk as -> -> ->. simpl in H. rewrite Hsc, Hc, Hdeg in H.
      intros Hin. apply in_map_iff in Hin. destruct Hin as [d [Hd Hin]].
      pose proof (draw_loop_indices _ _ _ _ _ _ _ H d Hin). lia.
    + simpl in Hk. replace (i + S k)%nat with (S i + k)%nat by lia.
      simpl in H. destruct (qlt sc' thr).
      * exact (IH _ _ _ _ _ _ _ _ _ _ _ H Hk Hsc Hc Hdeg).
      * destruct (match corners w h box' with Some c => Some c | None => prev end)
          as [[[[a1 b1] a2] b2]|]; [|discriminate].
        destruct (match corners w h box' with
                  | Some _ => qlt (a2 - a1) 1 || qlt (b2 - b1) 1 | None => false end).
        -- exact (IH _ _ _ _ _ _ _ _ _ _ _ H Hk Hsc Hc Hdeg).
        -- destruct (draw_loop w h thr (S i) _ rest) as [ds'|e] eqn:E; [|discriminate].
           simpl in H. injection H as <-. simpl. intros [Heq|Hin]; [lia|].
           exact (IH _ _ _ _ _ _ _ _ _ _ _ E Hk Hsc Hc Hdeg Hin).
Qed.

Lemma filter_detections_nth : forall lbls scores threshold i lbl sc,
  nth_error lbls i = Some lbl -> nth_error scores i = Some sc ->
  Qle_bool threshold sc = true -> In (lbl, sc) (filter_detections lbls scores threshold).
Proof.
  intros lbls scores threshold i lbl sc Hl Hs Hq. unfold filter_detections.
  apply filter_In. split; [|exact Hq].
  apply (nth_error_In _ i). apply nth_error_zip; assumption.
Qed.

(** C8: a detection [i] at or above the threshold whose box, once turned
    into clamped corners, is less than one pixel wide or high is not drawn;
    the report does not read the boxes at all (any other boxes give the
    same result), and when a report is produced the detection is counted
    in the statistics of its label: its score is in the label's group and
    the [LabelStat] of that label is computed from the whole group. *)
Theorem degenerate_box_still_counted :
  forall img_width img_height boxes lbls scores threshold i box lbl sc x1 y1 x2 y2,
  nth_error boxes i = Some box -> nth_error lbls i = Some lbl ->
  nth_error scores i = Some sc -> Qle_bool threshold sc = true ->
  corners img_width img_height box = Some (x1, y1, x2, y2) ->
  (qlt (x2 - x1) 1 || qlt (y2 - y1) 1) = true ->
  (forall ds, draw_bounding_boxes img_width img_height boxes lbls scores threshold = Ok ds ->
     ~ In i (map d_index ds)) /\
  (forall image_path mm file boxes',
     save_detections_to_json image_path boxes' lbls scores mm threshold file =
     save_detections_to_json image_path boxes lbls scores mm threshold file) /\
  (forall image_path mm f,
     build_feature image_path boxes lbls scores mm threshold = Ok (Some f) ->
     exists ls, In ls (labels f) /\ label ls = py_int lbl /\
       In sc (group (py_int lbl) (filter_detections lbls scores threshold)) /\
       stat_of_group (filter_detections lbls scores threshold) ls).
Proof.
  intros img_width img_height boxes lbls scores threshold i box lbl sc x1 y1 x2 y2
    Hb Hl Hs Hq Hc Hdeg.
  split; [|split].
  - intros ds H.
    assert (Hn : nth_error (zip (zip boxes lbls) scores) i = Some (box, lbl, sc)).
    { apply nth_error_zip; [apply nth_error_zip|]; assumption. }
    assert (Hsc : qlt sc threshold = false) by (unfold qlt; rewrite Hq; reflexivity).
    exact (draw_loop_skips _ _ _ _ i 0 None ds box lbl sc x1 y1 x2 y2 H Hn Hsc Hc Hdeg).
  - intros. reflexivity.
  - intros image_path mm f Hf.
    pose proof (filter_detections_nth lbls scores threshold i lbl sc Hl Hs Hq) as Hin.
    destruct (build_feature_inv _ _ _ _ _ _ _ Hf) as [_ [_ [Hstat [Hcov _]]]].
    destruct (Hcov _ Hin) as [ls [Hls Hlab]]. simpl in Hlab.
    exists ls. split; [exact Hls|]. split; [exact Hlab|]. split.
    + unfold group. apply in_map_iff. exists (lbl, sc). split; [reflexivity|].
      apply filter_In. split; [exact Hin | apply Z.eqb_refl].
    + exact (Hstat ls Hls).
Qed.

Lemma degenerate_box_still_counted_witness :
  draw_bounding_boxes 100 100 example_boxes [3; 3] [9 # 10; 8 # 10] (1 # 2) =
    Ok [{| d_index := 1; d_x1 := 80 # 2; d_y1 := 80 # 2; d_x2 := 120 # 2; d_y2 := 120 # 2;
           d_label := 3; d_score := 8 # 10 |}] /\
  (forall ds, draw_bounding_boxes 100 100 example_boxes [3; 3] [9 # 10; 8 # 10] (1 # 2) = Ok ds ->
     ~ In 0%nat (map d_index ds)) /\
  (forall image_path mm file boxes',
     save_detections_to_json image_path boxes' [3; 3] [9 # 10; 8 # 10] mm (1 # 2) file =
     save_detections_to_json image_path example_boxes [3; 3] [9 # 10; 8 # 10] mm (1 # 2) file) /\
  (forall image_path mm f,
     build_feature image_path example_boxes [3; 3] [9 # 10; 8 # 10] mm (1 # 2) = Ok (Some f) ->
     exists ls, In ls (labels f) /\ label ls = py_int 3 /\
       In (9 # 10) (group (py_int 3) (filter_detections [3; 3] [9 # 10; 8 # 10] (1 # 2))) /\
       stat_of_group (filter_detections [3; 3] [9 # 10; 8 # 10] (1 # 2)) ls).
Proof.
  split; [vm_compute; reflexivity|].
  apply (degenerate_box_still_counted 100 100 example_boxes [3; 3] [9 # 10; 8 # 10] (1 # 2)
           0 [50; 50; 0; 10] 3 (9 # 10) (100 # 2) (90 # 2) (100 # 2) (110 # 2)).
  - reflexivity.
  - reflexivity.
  - reflexivity.
  - vm_compute. reflexivity.
  - vm_compute. reflexivity.
  - vm_compute. reflexivity.
Defined.

(* ------------------------------------------------------------------ *)
(** * Lemmas: the batch loop *)

Lemma save_none_inv : forall image_path boxes lbls scores mm threshold file file',
  save_detections_to_json image_path boxes lbls scores mm threshold file = Ok (None, file') ->
  file' = file.
Proof.
  intros image_path boxes lbls scores mm threshold file file' H.
  unfold save_detections_to_json in H.
  destruct (build_feature _ _ _ _ _ _) as [[f0|]|e]; cbn [bind] in H; try discriminate.
  - destruct (col_features (load_collection file)) as [fs|]; cbn [bind] in H; [|discriminate].
    destruct (summary_of (fs ++ [f0])); cbn [bind] in H; discriminate.
  - injection H as <-. reflexivity.
Qed.

Lemma save_features_step : forall image_path boxes lbls scores mm threshold file file' fo fs,
  col_features (load_collection file) = Some fs ->
  save_detections_to_json image_path boxes lbls scores mm threshold file = Ok (fo, file') ->
  col_features (load_collection file') =
    Some (fs ++ match fo with Some f => [f] | None => [] end)%list.
Proof.
  intros image_path boxes lbls scores mm threshold file file' [f|] fs Hfs H.
  - destruct (save_some_inv _ _ _ _ _ _ _ _ _ H) as [_ [fs' [s [Hfs' [_ ->]]]]].
    rewrite Hfs in Hfs'. injection Hfs' as <-.
    cbn [load_collection col_type]. rewrite load_collection_type. reflexivity.
  - apply save_none_inv in H. subst file'. rewrite app_nil_r. exact Hfs.
Qed.

Lemma batch_step_spec : forall detect w h mm od oj thr outs file p r outs' file' fs,
  col_features (load_collection file) = Some fs ->
  batch_step detect w h mm od oj thr (outs, file) p = (r, (outs', file')) ->
  result_path r = p /\
  col_features (load_collection file') = Some (fs ++ result_features [r])%list /\
  ((exists d, run_inference detect w h p thr = Ok d) -> od = true -> In (detected_name p) outs') /\
  (forall x, In x outs' -> In x outs \/ x = detected_name p) /\
  (forall x, In x outs -> In x outs').
Proof.
  intros detect w h mm od oj thr outs file p r outs' file' fs Hfs H.
  unfold batch_step in H.
  assert (Hout : forall o : list string,
            o = (if od then (outs ++ [detected_name p])%list else outs) ->
            (od = true -> In (detected_name p) o) /\
            (forall x, In x o -> In x outs \/ x = detected_name p) /\
            (forall x, In x outs -> In x o)).
  { intros o ->. destruct od; split; try split; intros; try discriminate; auto.
    - apply in_or_app. right. left. reflexivity.
    - apply in_app_iff in H0. destruct H0 as [H0|[H0|[]]]; auto.
    - apply in_or_app. left. assumption. }
  destruct (run_inference detect w h p thr) as [[[boxes l] s]|e] eqn:Er.
  - destruct (oj && match mm with [] => false | _ => true end).
    + destruct (save_detections_to_json p boxes l s mm thr file) as [[fo f']|e] eqn:Es.
      * injection H as <- <- <-. destruct (Hout _ eq_refl) as [H1 [H2 H3]].
        split; [reflexivity|]. split.
        { rewrite (save_features_step _ _ _ _ _ _ _ _ _ _ Hfs Es). simpl.
          destruct fo; reflexivity. }
        split; [intros _; exact H1|]. split; assumption.
      * injection H as <- <- <-. destruct (Hout _ eq_refl) as [H1 [H2 H3]].
        split; [reflexivity|]. split; [simpl; rewrite app_nil_r; exact Hfs|].
        split; [intros _; exact H1|]. split; assumption.
    + injection H as <- <- <-. destruct (Hout _ eq_refl) as [H1 [H2 H3]].
      split; [reflexivity|]. split; [simpl; rewrite app_nil_r; exact Hfs|].
      split; [intros _; exact H1|]. split; assumption.
  - injection H as <- <- <-. split; [reflexivity|].
    split; [simpl; rewrite app_nil_r; exact Hfs|].
    split; [intros [d Hd]; discriminate|]. split; auto.
Qed.

Lemma batch_loop_spec : forall detect w h mm od oj thr paths outs file rs outs' file' fs,
  col_features (load_collection file) = Some fs ->
  batch_loop detect w h mm od oj thr paths (outs, file) = (rs, (outs', file')) ->
  map result_path rs = paths /\
  col_features (load_collection file') = Some (fs ++ result_features rs)%list /\
  (forall p, In p paths -> (exists d, run_inference detect w h p thr = Ok d) -> od = true ->
     In (detected_name p) outs') /\
  (forall x, In x outs' -> In x outs \/ exists p, In p paths /\ x = detected_name p) /\
  (forall x, In x outs -> In x outs').
Proof.
  intros detect w h mm od oj thr paths.
  induction paths as [|p ps IH]; intros outs file rs outs' file' fs Hfs H.
  - simpl in H. injection H as <- <- <-. simpl. rewrite app_nil_r.
    split; [reflexivity|]. split; [exact Hfs|]. split; [intros _ []|]. split; auto.
  - cbn [batch_loop] in H.
    destruct (batch_step detect w h mm od oj thr (outs, file) p) as [r [o1 f1]] eqn:Es.
    destruct (batch_loop detect w h mm od oj thr ps (o1, f1)) as [rs' [o2 f2]] eqn:El.
    injection H as <- <- <-.
    destruct (batch_step_spec _ _ _ _ _ _ _ _ _ _ _ _ _ _ Hfs Es) as [Hp [Hf [Hd [Hsub Hsup]]]].
    destruct (IH _ _ _ _ _ _ Hf El) as [Hp' [Hf' [Hd' [Hsub' Hsup']]]].
    split; [simpl; rewrite Hp, Hp'; reflexivity|].
    split.
    { replace (result_features (r :: rs')) with (result_features [r] ++ result_features rs')%list
        by (simpl; rewrite app_nil_r; reflexivity).
      rewrite Hf', <- app_assoc. reflexivity. }
    split.
    { intros q [<-|Hq] Hr Hod; [apply Hsup'; exact (Hd Hr Hod)|]. exact (Hd' q Hq Hr Hod). }
    split.
    { intros x Hx. destruct (Hsub' x Hx) as [Hx1|[q [Hq ->]]].
      - destruct (Hsub x Hx1) as [H0 | ->]; [left; exact H0|].
        right. exists p. split; [left; reflexivity | reflexivity].
      - right. exists q. split; [right; exact Hq | reflexivity]. }
    intros x Hx. apply Hsup', Hsup, Hx.
Qed.

Lemma batch_loop_no_metadata : forall detect w h od oj thr paths outs file rs outs' file',
  batch_loop detect w h [] od oj thr paths (outs, file) = (rs, (outs', file')) ->
  file' = file /\ result_features rs = [].
Proof.
  intros detect w h od oj thr paths.
  induction paths as [|p ps IH]; intros outs file rs outs' file' H.
  - simpl in H. injection H as <- <- <-. split; reflexivity.
  - cbn [batch_loop] in H. unfold batch_step in H.
    rewrite andb_false_r in H.
    destruct (run_inference detect w h p thr) as [[[boxes l] s]|e].
    + destruct (batch_loop detect w h [] od oj thr ps _) as [rs' [o2 f2]] eqn:El.
      injection H as <- <- <-. destruct (IH _ _ _ _ _ El) as [-> Hr]. split; [reflexivity|].
      simpl. exact Hr.
    + destruct (batch_loop detect w h [] od oj thr ps _) as [rs' [o2 f2]] eqn:El.
      injection H as <- <- <-. destruct (IH _ _ _ _ _ El) as [-> Hr]. split; [reflexivity|].
      simpl. exact Hr.
Qed.

Lemma run_inference_on_images_inv : forall session w h thr pe pd ue ud pm um st rs st',
  run_inference_on_images session w h thr pe pd ue ud pm um st = (Some rs, st') ->
  exists detect mm, session = Ok detect /\ run_metadata_map pm um = Ok mm /\
    batch_loop detect w h mm true true thr (inference_candidates pe pd ue ud) ([], FAbsent)
      = (rs, st').
Proof.
  intros session w h thr pe pd ue ud pm um st rs st' H.
  unfold run_inference_on_images in H.
  destruct (inference_candidates pe pd ue ud) as [|c cs] eqn:Ec; [discriminate|].
  destruct (run_metadata_map pm um) as [mm|e]; [|discriminate].
  unfold process_image_batch in H. destruct session as [detect|e]; [|discriminate].
  destruct (batch_loop detect w h mm true true thr (c :: cs) ([], FAbsent)) as [rs0 st0] eqn:El.
  injection H as <- <-. exists detect, mm. split; [reflexivity|]. split; [reflexivity|].
  exact El.
Qed.


Lemma user_images_in : forall ud u, In u (user_images ud) -> In u ud.
Proof.
  intros ud u H. unfold user_images in H.
  repeat rewrite in_app_iff in H. destruct H as [H|[H|H]]; apply filter_In in H; apply H.
Qed.



(** When the merged metadata map is empty (no metadata file, or files
    without usable entries), [process_image_batch] never calls
    [save_detections_to_json]: after a run there is no [detections.json]
    at all and no entry carries a feature, although the detected image of
    every candidate whose detection and drawing succeeded is written. *)
Theorem run_inference_on_images_no_metadata :
  forall detect w h thr pe pd ue ud pm um st rs outs' file',
  run_metadata_map pm um = Ok [] ->
  run_inference_on_images (Ok detect) w h thr pe pd ue ud pm um st = (Some rs, (outs', file')) ->
  file' = FAbsent /\ result_features rs = [] /\
  (forall p, In p (inference_candidates pe pd ue ud) ->
     (exists d, run_inference detect w h p thr = Ok d) -> In (detected_name p) outs').
Proof.
  intros detect w h thr pe pd ue ud pm um st rs outs' file' Hm H.
  destruct (run_inference_on_images_inv _ _ _ _ _ _ _ _ _ _ _ _ _ H)
    as [detect' [mm [Hd [Hm' Hl]]]].
  injection Hd as <-. rewrite Hm in Hm'. injection Hm' as <-.
  destruct (batch_loop_no_metadata _ _ _ _ _ _ _ _ _ _ _ _ Hl) as [Hf Hr].
  destruct (batch_loop_spec detect w h [] true true thr _ [] FAbsent rs outs' file' [] eq_refl Hl)
    as [_ [_ [Hout _]]].
  split; [exact Hf|]. split; [exact Hr|].
  intros p Hp Hok. exact (Hout p Hp Hok eq_refl).
Qed.

Lemma run_inference_on_images_no_metadata_witness :
  run_metadata_map SrcMissing SrcMissing = Ok [] /\
  exists rs outs' file',
  run_inference_on_images (Ok example_failing_detector) 100 100 (1 # 2) true ["abc_1.jpg"; "bad.jpg"]
    false [] SrcMissing SrcMissing ([], FUnreadable) = (Some rs, (outs', file')) /\
  file' = FAbsent /\ result_features rs = [] /\
  (forall p, In p (inference_candidates true ["abc_1.jpg"; "bad.jpg"] false []) ->
     (exists d, run_inference example_failing_detector 100 100 p (1 # 2) = Ok d) ->
     In (detected_name p) outs').
Proof.
  split; [reflexivity|].
  eexists _, _, _. split; [vm_compute; reflexivity|].
  apply (run_inference_on_images_no_metadata example_failing_detector 100 100 (1 # 2) true
           ["abc_1.jpg"; "bad.jpg"] false [] SrcMissing SrcMissing ([], FUnreadable)).
  - reflexivity.
  - vm_compute. reflexivity.
Defined.

(** After a run in which the session loaded and every candidate image went
    through detection and drawing, every crowd-upload image the glob of
    [should_run_inference] matches has its detected counterpart, provided
    those images have an image suffix for [run_inference_on_images]:
    [should_run_inference] then answers [False] on the next page load. *)
Theorem run_inference_on_images_closes_gate :
  forall detect w h thr pe pd ue ud pm um st rs outs' file',
  (forall p, In p (inference_candidates pe pd ue ud) ->
     exists d, run_inference detect w h p thr = Ok d) ->
  (forall u, In u (user_images ud) -> is_image u = true) ->
  run_inference_on_images (Ok detect) w h thr pe pd ue ud pm um st = (Some rs, (outs', file')) ->
  should_run_inference true ue ud outs' = false.
Proof.
  intros detect w h thr pe pd ue ud pm um st rs outs' file' Hok Himg H.
  destruct (run_inference_on_images_inv _ _ _ _ _ _ _ _ _ _ _ _ _ H)
    as [detect' [mm [Hs [_ Hl]]]].
  injection Hs as <-.
  destruct (batch_loop_spec detect w h mm true true thr _ [] FAbsent rs outs' file' [] eq_refl Hl)
    as [_ [_ [Hd _]]].
  unfold should_run_inference. cbn [negb]. destruct ue; [|reflexivity].
  destruct (existsb _ (user_images ud)) eqn:E; [|reflexivity].
  apply existsb_exists in E. destruct E as [u [Hu Hn]].
  assert (Hc : In u (inference_candidates pe pd true ud)).
  { unfold inference_candidates. apply in_or_app. right.
    apply filter_In. split; [exact (user_images_in _ _ Hu) | exact (Himg u Hu)]. }
  pose proof (Hd u Hc (Hok u Hc) eq_refl) as Hin.
  assert (Hex : existsb (String.eqb (detected_name u)) outs' = true).
  { apply existsb_exists. exists (detected_name u). split; [exact Hin | apply String.eqb_refl]. }
  rewrite Hex in Hn. discriminate.
Qed.

Lemma run_inference_on_images_closes_gate_witness :
  (forall p, In p (inference_candidates true ["abc_1.jpg"] true ["pothole_x.png"]) ->
     exists d, run_inference example_detector 100 100 p (1 # 2) = Ok d) /\
  (forall u, In u (user_images ["pothole_x.png"]) -> is_image u = true) /\
  exists rs outs' file',
  run_inference_on_images (Ok example_detector) 100 100 (1 # 2) true ["abc_1.jpg"]
    true ["pothole_x.png"] example_pre_meta SrcMissing ([], FAbsent) = (Some rs, (outs', file')) /\
  should_run_inference true true ["pothole_x.png"] outs' = false.
Proof.
  assert (Hok : forall p, In p (inference_candidates true ["abc_1.jpg"] true ["pothole_x.png"]) ->
            exists d, run_inference example_detector 100 100 p (1 # 2) = Ok d).
  { intros p _. eexists. vm_compute. reflexivity. }
  assert (Himg : forall u, In u (user_images ["pothole_x.png"]) -> is_image u = true).
  { intros u Hu. vm_compute in Hu. destruct Hu as [<-|[]]. reflexivity. }
  split; [exact Hok|]. split; [exact Himg|].
  eexists _, _, _. split; [vm_compute; reflexivity|].
  eapply (run_inference_on_images_closes_gate example_detector 100 100 (1 # 2) true ["abc_1.jpg"]
            true ["pothole_x.png"] example_pre_meta SrcMissing ([], FAbsent)); [exact Hok | exact Himg|].
  vm_compute. reflexivity.
Defined.

Lemma qlt_true : forall a b, qlt a b = true -> a < b.
Proof.
  intros a b H. unfold qlt in H. apply negb_true_iff in H.
  apply Qnot_le_lt. intros Hle. apply Qle_bool_iff in Hle. congruence.
Qed.

Lemma qlt_false : forall a b, qlt a b = false -> b <= a.
Proof.
  intros a b H. unfold qlt in H. apply negb_false_iff in H. apply Qle_bool_iff. exact H.
Qed.

Lemma wf_label_item_inv : forall it, wf_label_item it = true ->
  exists kvs, it = JObj kvs /\ hashable (get_or "label" JNull kvs) = true /\
  num_of (get_or "count" (JNum 1) kvs) = Some (count_of it) /\
  is_number (get_or "avg_confidence" (JNum 0) kvs) = true.
Proof.
  intros it H. destruct it as [| | | | |kvs]; try discriminate H.
  simpl in H. apply andb_prop in H as [H Ha]. apply andb_prop in H as [Hl Hc].
  exists kvs. split; [reflexivity|]. split; [exact Hl|]. split; [|exact Ha].
  simpl. unfold is_number in Hc. destruct (num_of (get_or "count" (JNum 1) kvs)); [reflexivity|discriminate].
Qed.

Lemma dominant_loop_spec : forall items mj m d,
  forallb wf_label_item items = true -> num_of mj = Some m ->
  exists r, dominant_loop items mj d = Ok r /\
  (((forall x, In x items -> count_of x <= m) /\ r = d) \/
   exists pre it post, items = (pre ++ it :: post)%list /\ m < count_of it /\
     (forall x, In x pre -> count_of x < count_of it) /\
     (forall x, In x post -> count_of x <= count_of it) /\ r = label_of it).
Proof.
  induction items as [|x rest IH]; intros mj m d Hwf Hm.
  - exists d. split; [reflexivity|]. left. split; [intros _ []|reflexivity].
  - simpl in Hwf. apply andb_prop in Hwf as [Hx Hrest].
    destruct (wf_label_item_inv x Hx) as [kvs [-> [_ [Hc _]]]].
    cbn [dominant_loop py_get bind]. fold (get_or "count" (JNum 1) kvs).
    unfold gt_number. rewrite Hc, Hm. cbn [bind].
    destruct (qlt m (count_of (JObj kvs))) eqn:Eq.
    + apply qlt_true in Eq. fold (get_or "label" JNull kvs).
      destruct (IH _ _ (get_or "label" JNull kvs) Hrest Hc) as [r [Hr Hcase]].
      exists r. split; [exact Hr|]. right.
      destruct Hcase as [[Hall ->]|[pre [it [post [-> [Hlt [Hpre [Hpost ->]]]]]]]].
      * exists [], (JObj kvs), rest. split; [reflexivity|]. split; [exact Eq|].
        split; [intros _ []|]. split; [exact Hall|reflexivity].
      * exists (JObj kvs :: pre), it, post. split; [reflexivity|].
        split; [apply Qlt_trans with (count_of (JObj kvs)); assumption|].
        split; [|split; [exact Hpost|reflexivity]].
        intros y [<-|Hy]; [exact Hlt|apply Hpre; exact Hy].
    + apply qlt_false in Eq.
      destruct (IH _ _ d Hrest Hm) as [r [Hr Hcase]].
      exists r. split; [exact Hr|].
      destruct Hcase as [[Hall ->]|[pre [it [post [-> [Hlt [Hpre [Hpost ->]]]]]]]].
      * left. split; [|reflexivity]. intros y [<-|Hy]; [exact Eq|apply Hall; exact Hy].
      * right. exists (JObj kvs :: pre), it, post. split; [reflexivity|].
        split; [exact Hlt|]. split; [|split; [exact Hpost|reflexivity]].
        intros y [<-|Hy]; [apply Qle_lt_trans with m; assumption|apply Hpre; exact Hy].
Qed.


Lemma is_number_format : forall v, is_number v = true -> check_float_format v = Ok tt.
Proof. intros [| | | | |] H; try discriminate H; reflexivity. Qed.

Lemma existsb_map' : forall {A B} (f : B -> bool) (g : A -> B) l,
  existsb f (map g l) = existsb (fun x => f (g x)) l.
Proof. intros A B f g l. induction l as [|x l IH]; simpl; [reflexivity|rewrite IH; reflexivity]. Qed.

Lemma label_ids_ok : forall items, forallb wf_label_item items = true ->
  map_outcome (fun it => let* l := py_get "label" JNull it in let* _ := json_key l in Ok l) items
  = Ok (map label_of items).
Proof.
  induction items as [|x rest IH]; intros H; [reflexivity|].
  simpl in H. apply andb_prop in H as [Hx Hr].
  destruct (wf_label_item_inv x Hx) as [kvs [-> [Hl _]]].
  cbn [map_outcome py_get bind]. fold (get_or "label" JNull kvs).
  destruct (get_or "label" JNull kvs) eqn:E; try discriminate Hl;
  cbn [json_key bind]; rewrite (IH Hr); cbn [bind map label_of]; rewrite E; reflexivity.
Qed.

Lemma detection_html_ok : forall items, forallb wf_label_item items = true ->
  exists us, map_outcome detection_html items = Ok us.
Proof.
  intros items H. destruct (map_outcome_ok detection_html items) as [ys [Hys _]].
  - intros x Hx. exists tt. rewrite forallb_forall in H. specialize (H x Hx).
    destruct (wf_label_item_inv x H) as [kvs [-> [Hl [Hc Ha]]]].
    unfold detection_html. cbn [py_get bind]. fold (get_or "label" JNull kvs).
    fold (get_or "avg_confidence" (JNum 0) kvs). fold (get_or "count" (JNum 1) kvs).
    destruct (get_or "label" JNull kvs); try discriminate Hl; cbn [json_key bind];
    rewrite (is_number_format _ Ha); cbn [bind]; unfold gt_number; rewrite Hc; reflexivity.
  - exists ys. exact Hys.
Qed.

Lemma feature_marker_wf : forall fl f, wf_map_feature f = true ->
  exists dom, dominant_loop (feature_items f) (JNum 0) JNull = Ok dom /\
  feature_marker fl f =
    Ok (if match fl with None => true | Some l => filter_keeps l f end
        then Some {| mk_lat := feature_lat f; mk_lon := feature_lon f;
                     mk_color := marker_color dom |}
        else None).
Proof.
  intros fl f H. destruct f as [| | | | |kvs]; try discriminate H.
  unfold wf_map_feature in H.
  destruct (obj_get "geometry" kvs) as [[| | | | |g]|] eqn:Eg; try discriminate H;
  destruct (obj_get "properties" kvs) as [[| | | | |p]|] eqn:Ep; try discriminate H.
  destruct (obj_get "coordinates" g) as [[| | | |[|lon [|lat rest]]|]|] eqn:Ec; try discriminate H.
  apply andb_prop in H as [H Hlbl]. apply andb_prop in H as [H Himg].
  apply andb_prop in H as [Hlon Hlat].
  assert (Hlbls : exists items, forallb wf_label_item items = true /\
            match obj_get "labels" p with Some x => x | None => JArr [] end = JArr items).
  { destruct (obj_get "labels" p) as [[| | | |l|]|]; try discriminate Hlbl.
    - exists l. split; [exact Hlbl|reflexivity].
    - exists []. split; reflexivity. }
  destruct Hlbls as [items [Hwf Hli]].
  assert (Hfi : feature_items (JObj kvs) = items).
  { unfold feature_items, get_or. rewrite Ep. rewrite Hli. reflexivity. }
  assert (Hlat' : feature_lat (JObj kvs) = lat).
  { unfold feature_lat, get_or. rewrite Eg, Ec. reflexivity. }
  assert (Hlon' : feature_lon (JObj kvs) = lon).
  { unfold feature_lon, get_or. rewrite Eg, Ec. reflexivity. }
  rewrite Hfi, Hlat', Hlon'.
  destruct (dominant_loop_spec items (JNum 0) 0 JNull Hwf eq_refl) as [dom [Hdom _]].
  exists dom. split; [exact Hdom|].
  assert (Himg' : (if truthy (match obj_get "image" p with Some x => x | None => JStr "" end)
                   then match (match obj_get "image" p with Some x => x | None => JStr "" end) with
                        | JStr _ => Ok tt | _ => Raise TypeError end
                   else Ok tt) = Ok tt).
  { destruct (obj_get "image" p) as [[| | | | |]|]; try reflexivity;
    simpl in Himg |- *; try (destruct (negb _); reflexivity);
    apply negb_true_iff in Himg; rewrite Himg; reflexivity. }
  unfold feature_marker. cbn [py_getitem_str bind]. rewrite Eg. cbn [bind py_getitem_str].
  rewrite Ec. cbn [bind py_getitem_str]. rewrite Ep. cbn [bind py_getitem_int nth_error].
  rewrite (is_number_format _ Hlat), (is_number_format _ Hlon). cbn [bind py_get].
  rewrite Hli.
  assert (Hkeep : (match fl with
               | None => Ok true
               | Some fl0 =>
                   let* items0 := py_iter (JArr items) in
                   let* ids := map_outcome (fun it =>
                                 let* l := py_get "label" JNull it in
                                 let* _ := json_key l in Ok l) items0 in
                   Ok (existsb (fun l => existsb (eq_int l) fl0) ids)
               end) = Ok (match fl with None => true | Some l => filter_keeps l (JObj kvs) end)).
  { destruct fl as [l|]; [|reflexivity]. cbn [py_iter bind]. rewrite (label_ids_ok items Hwf).
    cbn [bind]. rewrite existsb_map'. unfold filter_keeps. rewrite Hfi. reflexivity. }
  rewrite Hkeep. cbn [bind].
  destruct (match fl with None => true | Some l => filter_keeps l (JObj kvs) end); [|reflexivity].
  cbn [negb].
  destruct items as [|x xs].
  - cbn [truthy bind]. rewrite Himg'. cbn in Hdom. injection Hdom as <-. reflexivity.
  - cbn [truthy py_len bind py_iter]. cbn [Nat.ltb Nat.leb]. rewrite Hdom. cbn [bind].
    destruct (detection_html_ok (x :: xs) Hwf) as [us Hus]. rewrite Hus. cbn [bind].
    rewrite Himg'. reflexivity.
Qed.


Lemma markers_loop_wf_spec : forall fs, forallb wf_map_feature fs = true ->
  exists ms, markers_loop None fs = (ms, None) /\
  Forall2 (fun f m => mk_lat m = feature_lat f /\ mk_lon m = feature_lon f /\
    (((forall x, In x (feature_items f) -> count_of x <= 0) /\ mk_color m = "gray") \/
     exists pre it post, feature_items f = (pre ++ it :: post)%list /\ 0 < count_of it /\
       (forall x, In x pre -> count_of x < count_of it) /\
       (forall x, In x post -> count_of x <= count_of it) /\
       mk_color m = marker_color (label_of it))) fs ms.
Proof.
  induction fs as [|f fs IH]; intros H.
  - exists []. split; [reflexivity|constructor].
  - simpl in H. apply andb_prop in H as [Hf Hfs].
    destruct (IH Hfs) as [ms [Hms Hall]].
    destruct (feature_marker_wf None f Hf) as [dom [Hdom Hfm]].
    exists ({| mk_lat := feature_lat f; mk_lon := feature_lon f; mk_color := marker_color dom |} :: ms).
    cbn [markers_loop]. rewrite Hfm, Hms. split; [reflexivity|].
    constructor; [|exact Hall]. cbn [mk_lat mk_lon mk_color].
    split; [reflexivity|]. split; [reflexivity|].
    assert (Hwi : forallb wf_label_item (feature_items f) = true).
    { clear -Hf. destruct f as [| | | | |kvs]; try discriminate Hf.
      unfold wf_map_feature in Hf. unfold feature_items, get_or.
      destruct (obj_get "geometry" kvs) as [[| | | | |g]|]; try discriminate Hf;
      destruct (obj_get "properties" kvs) as [[| | | | |p]|]; try discriminate Hf.
      destruct (obj_get "coordinates" g) as [[| | | |[|lon [|lat rest]]|]|]; try discriminate Hf.
      apply andb_prop in Hf as [_ Hl].
      destruct (obj_get "labels" p) as [[| | | |l|]|]; try discriminate Hl; [exact Hl|reflexivity]. }
    destruct (dominant_loop_spec (feature_items f) (JNum 0) 0 JNull Hwi eq_refl)
      as [r [Hr Hcase]].
    rewrite Hdom in Hr. injection Hr as <-.
    destruct Hcase as [[Hle ->]|[pre [it [post [Heq [Hlt [Hpre [Hpost ->]]]]]]]].
    + left. split; [exact Hle|reflexivity].
    + right. exists pre, it, post. repeat split; assumption.
Qed.


Lemma markers_loop_filter : forall l fs, forallb wf_map_feature fs = true ->
  markers_loop (Some l) fs = markers_loop None (filter (filter_keeps l) fs).
Proof.
  intros l fs. induction fs as [|f fs IH]; intros H; [reflexivity|].
  simpl in H. apply andb_prop in H as [Hf Hfs].
  destruct (feature_marker_wf (Some l) f Hf) as [dom [Hdom Hs]].
  destruct (feature_marker_wf None f Hf) as [dom' [Hdom' Hn]].
  rewrite Hdom in Hdom'. injection Hdom' as <-.
  cbn [markers_loop filter]. rewrite Hs. destruct (filter_keeps l f).
  - cbn [markers_loop]. rewrite Hn, (IH Hfs). reflexivity.
  - exact (IH Hfs).
Qed.

Lemma eq_int_inject : forall z n, eq_int (JNum (inject_Z z)) n = Z.eqb z n.
Proof.
  intros z n. unfold eq_int. cbn [num_of]. destruct (Z.eqb_spec z n) as [->|Hne].
  - apply Qeq_bool_refl.
  - apply not_true_iff_false. intros Hq. apply Qeq_bool_iff in Hq.
    exact (Hne (proj1 (inject_Z_injective z n) Hq)).
Qed.

Lemma marker_color_label : forall z, marker_color (JNum (inject_Z z)) = label_color z.
Proof. intros z. unfold marker_color, label_color. rewrite !eq_int_inject. reflexivity. Qed.

Lemma feature_json_wf : forall f, is_number (longitude f) = true -> is_number (latitude f) = true ->
  wf_map_feature (feature_json f) = true.
Proof.
  intros f Hlon Hlat. unfold wf_map_feature, feature_json. cbn.
  rewrite Hlon, Hlat. cbn. induction (labels f) as [|x xs IH]; [reflexivity|].
  cbn. exact IH.
Qed.

Lemma feature_json_items : forall f, feature_items (feature_json f) = map label_json (labels f).
Proof. reflexivity. Qed.

Lemma feature_json_lat : forall f, feature_lat (feature_json f) = latitude f.
Proof. reflexivity. Qed.

Lemma feature_json_lon : forall f, feature_lon (feature_json f) = longitude f.
Proof. reflexivity. Qed.

Lemma count_of_label_json : forall l, count_of (label_json l) = inject_Z (Z.of_nat (count l)).
Proof. reflexivity. Qed.

Lemma label_of_label_json : forall l, label_of (label_json l) = JNum (inject_Z (label l)).
Proof. reflexivity. Qed.

Lemma existsb_ext' : forall {A} (f g : A -> bool) l,
  (forall x, f x = g x) -> existsb f l = existsb g l.
Proof.
  intros A f g l H. induction l as [|x l IH]; [reflexivity|]. cbn. rewrite H, IH. reflexivity.
Qed.

Lemma filter_keeps_feature_json : forall fl f,
  filter_keeps fl (feature_json f) = keeps_labels fl f.
Proof.
  intros fl f. unfold filter_keeps, keeps_labels. rewrite feature_json_items, existsb_map'.
  apply existsb_ext'. intros ls. rewrite label_of_label_json.
  apply existsb_ext'. intros z. apply eq_int_inject.
Qed.

Lemma filter_map_json : forall fl fs,
  filter (filter_keeps fl) (map feature_json fs)
  = map feature_json (filter (keeps_labels fl) fs).
Proof.
  intros fl fs. induction fs as [|f fs IH]; [reflexivity|].
  cbn [map filter]. rewrite filter_keeps_feature_json.
  destruct (keeps_labels fl f); cbn [map]; rewrite IH; reflexivity.
Qed.

Lemma Forall2_map_l' : forall {A B C} (P : B -> C -> Prop) (g : A -> B) xs ys,
  Forall2 P (map g xs) ys -> Forall2 (fun x y => P (g x) y) xs ys.
Proof.
  intros A B C P g xs. induction xs as [|x xs IH]; intros ys H; inversion H; subst; constructor.
  - assumption.
  - apply IH. assumption.
Qed.

Lemma collection_json_features : forall c fs, col_features c = Some fs ->
  truthy (collection_json c) = true /\
  py_get "features" (JArr []) (collection_json c) = Ok (JArr (map feature_json fs)).
Proof.
  intros c fs H. unfold collection_json. rewrite H.
  destruct (col_type c), (col_summary c); split; reflexivity.
Qed.

(** The map of a collection file as [save_detections_to_json] writes it,
    with numeric coordinates: [add_geojson_markers] raises nothing and
    draws one marker per feature the label filter keeps (a feature is kept
    when one of its labels is in the filter), in order, at the feature's
    latitude and longitude, coloured after the first label entry with the
    largest count (gray when every count is 0). *)
Theorem collection_markers : forall c fs fl, col_features c = Some fs ->
  Forall (fun f => is_number (longitude f) = true /\ is_number (latitude f) = true) fs ->
  exists ms, add_geojson_markers (Some (collection_json c)) fl = (ms, None) /\
  Forall2 saved_marker_rel
    (match fl with None => fs | Some zs => filter (keeps_labels zs) fs end) ms.
Proof.
  intros c fs fl Hc Hnum.
  destruct (collection_json_features c fs Hc) as [Ht Hg].
  assert (Hwf : forall gs, incl gs fs -> forallb wf_map_feature (map feature_json gs) = true).
  { intros gs Hi. apply forallb_forall. intros x Hx. apply in_map_iff in Hx as [f [<- Hf]].
    apply Forall_forall with (x := f) in Hnum as [Ha Hb]; [|apply Hi; exact Hf].
    apply feature_json_wf; assumption. }
  set (gs := match fl with
             | None => fs
             | Some zs => filter (keeps_labels zs) fs
             end).
  assert (Hgs : markers_loop fl (map feature_json fs) = markers_loop None (map feature_json gs)
                /\ incl gs fs).
  { subst gs. destruct fl as [zs|].
    - rewrite markers_loop_filter by (apply Hwf; apply incl_refl).
      rewrite filter_map_json. split; [reflexivity|].
      intros x Hx. apply filter_In in Hx. apply Hx.
    - split; [reflexivity|apply incl_refl]. }
  destruct Hgs as [Hgs Hincl].
  destruct (markers_loop_wf_spec (map feature_json gs) (Hwf gs Hincl)) as [ms [Hms Hall]].
  exists ms. unfold add_geojson_markers. rewrite Ht, Hg. cbn [negb py_iter].
  rewrite Hgs, Hms. split; [reflexivity|].
  apply Forall2_map_l' in Hall. clearbody gs. clear -Hall.
  induction Hall as [|f m fs' ms' [Hla [Hlo Hcol]] Hrest IH]; constructor; [|exact IH].
  unfold saved_marker_rel.
  rewrite feature_json_lat in Hla. rewrite feature_json_lon in Hlo.
  split; [exact Hla|]. split; [exact Hlo|].
  rewrite feature_json_items in Hcol.
  destruct Hcol as [[Hle Hgray]|[pre [it [post [Heq [Hlt [Hpre [Hpost Hcl]]]]]]]].
  - left. split; [|exact Hgray]. apply Forall_forall. intros l Hl.
    specialize (Hle (label_json l) (in_map _ _ _ Hl)). rewrite count_of_label_json in Hle.
    change 0 with (inject_Z (Z.of_nat 0)) in Hle. rewrite <- Zle_Qle in Hle. lia.
  - right. apply map_eq_app in Heq as [pre' [rest' [-> [Hpre' Hrest']]]].
    apply map_eq_cons in Hrest' as [l [post' [-> [Hl Hpost']]]]. subst pre it post.
    exists pre', l, post'. split; [reflexivity|].
    rewrite count_of_label_json in Hlt, Hpre, Hpost. rewrite label_of_label_json in Hcl.
    split; [change 0 with (inject_Z (Z.of_nat 0)) in Hlt; rewrite <- Zlt_Qlt in Hlt; lia|].
    split; [|split].
    + apply Forall_forall. intros x Hx. specialize (Hpre (label_json x) (in_map _ _ _ Hx)).
      rewrite count_of_label_json, <- Zlt_Qlt in Hpre. lia.
    + apply Forall_forall. intros x Hx. specialize (Hpost (label_json x) (in_map _ _ _ Hx)).
      rewrite count_of_label_json, <- Zle_Qle in Hpost. lia.
    + rewrite Hcl. apply marker_color_label.
Qed.


Lemma markers_loop_wf_ok : forall fl fs, forallb wf_map_feature fs = true ->
  snd (markers_loop fl fs) = None.
Proof.
  intros fl fs. induction fs as [|f fs IH]; intros H; [reflexivity|].
  simpl in H. apply andb_prop in H as [Hf Hfs].
  destruct (feature_marker_wf fl f Hf) as [dom [_ Hm]].
  cbn [markers_loop]. rewrite Hm.
  destruct (match fl with None => true | Some l => filter_keeps l f end); [|exact (IH Hfs)].
  specialize (IH Hfs). destruct (markers_loop fl fs). exact IH.
Qed.

Lemma markers_loop_app_raise : forall fl pre f post e,
  snd (markers_loop fl pre) = None -> feature_marker fl f = Raise e ->
  markers_loop fl (pre ++ f :: post) = (fst (markers_loop fl pre), Some e).
Proof.
  intros fl pre f post e. induction pre as [|g pre IH]; intros Hpre Hf.
  - cbn. rewrite Hf. reflexivity.
  - cbn [markers_loop app] in Hpre |- *. destruct (feature_marker fl g) as [[m|]|e'].
    + destruct (markers_loop fl pre) as [ms e''] eqn:E. cbn in Hpre. subst e''.
      rewrite (IH eq_refl Hf). reflexivity.
    + exact (IH Hpre Hf).
    + discriminate Hpre.
Qed.

(** A map feature without a ["geometry"] key stops [add_geojson_markers]
    with a [KeyError], whatever the label filter: the markers of the
    features before it stay on the map, the features after it get none. *)
Theorem missing_geometry_stops_map : forall fl pre kvs post,
  forallb wf_map_feature pre = true -> obj_get "geometry" kvs = None ->
  markers_loop fl (pre ++ JObj kvs :: post) = (fst (markers_loop fl pre), Some KeyError).
Proof.
  intros fl pre kvs post Hpre Hg. apply markers_loop_app_raise.
  - apply markers_loop_wf_ok. exact Hpre.
  - unfold feature_marker. cbn [py_getitem_str]. rewrite Hg. reflexivity.
Qed.

(** A collection file whose feature has a coordinate that is not a number
    (a string from the metadata file, say) stops [add_geojson_markers] at
    that feature, whatever the label filter: the latitude is formatted
    first, a string raising [ValueError] and a null or a list a
    [TypeError], then the longitude. The markers of the features before it
    stay on the map. *)
Theorem collection_bad_coordinate_stops_map : forall c pre f post fl e,
  col_features c = Some (pre ++ f :: post)%list ->
  Forall (fun g => is_number (longitude g) = true /\ is_number (latitude g) = true) pre ->
  (check_float_format (latitude f) = Raise e \/
   (is_number (latitude f) = true /\ check_float_format (longitude f) = Raise e)) ->
  add_geojson_markers (Some (collection_json c)) fl
  = (fst (markers_loop fl (map feature_json pre)), Some e).
Proof.
  intros c pre f post fl e Hc Hpre He.
  destruct (collection_json_features c _ Hc) as [Ht Hg].
  unfold add_geojson_markers. rewrite Ht, Hg. cbn [negb py_iter].
  rewrite map_app. cbn [map]. apply markers_loop_app_raise.
  - apply markers_loop_wf_ok. apply forallb_forall. intros x Hx.
    apply in_map_iff in Hx as [g [<- Hgin]].
    apply Forall_forall with (x := g) in Hpre as [Ha Hb]; [|exact Hgin].
    apply feature_json_wf; assumption.
  - unfold feature_marker, feature_json. cbn -[check_float_format].
    destruct He as [He|[Hn He]].
    + rewrite He. reflexivity.
    + rewrite (is_number_format _ Hn). cbn [bind]. rewrite He. reflexivity.
Qed.


Lemma key_eqb_num : forall a b, key_eqb (KNum (inject_Z a)) (KNum (inject_Z b)) = Z.eqb a b.
Proof.
  intros a b. unfold key_eqb. cbn [key_num].
  destruct (Z.eqb_spec a b) as [->|Hne]; [apply Qeq_bool_refl|].
  apply not_true_iff_false. intros Hq. apply Qeq_bool_iff in Hq.
  exact (Hne (proj1 (inject_Z_injective a b) Hq)).
Qed.

Lemma count_label_json : forall z q c1 c2 c3,
  count_label (JNum (inject_Z z)) (JNum q) (c1, c2, c3)
  = Ok (if (z =? 1)%Z then (c1 + q, c2, c3) else if (z =? 2)%Z then (c1, c2 + q, c3)
        else if (z =? 3)%Z then (c1, c2, c3 + q) else (c1, c2, c3)).
Proof.
  intros z q c1 c2 c3. unfold count_label. cbn [json_key bind].
  change (KNum 1) with (KNum (inject_Z 1)). change (KNum 2) with (KNum (inject_Z 2)).
  change (KNum 3) with (KNum (inject_Z 3)). rewrite !key_eqb_num.
  rewrite (Z.eqb_sym 1 z), (Z.eqb_sym 2 z), (Z.eqb_sym 3 z).
  destruct (z =? 1)%Z; [reflexivity|]. destruct (z =? 2)%Z; [reflexivity|].
  destruct (z =? 3)%Z; reflexivity.
Qed.

Lemma nq_add : forall a b, nq (a + b) == nq a + nq b.
Proof. intros a b. unfold nq. rewrite Nat2Z.inj_add, inject_Z_plus. reflexivity. Qed.

Lemma label_total_cons : forall k l ls,
  label_total k (l :: ls) = ((if (label l =? k)%Z then count l else 0) + label_total k ls)%nat.
Proof.
  intros k l ls. unfold label_total. rewrite !nsum_list_sum. cbn [filter].
  destruct (label l =? k)%Z; reflexivity.
Qed.

Lemma sidebar_items_json : forall ls td c1 c2 c3,
  exists td' c1' c2' c3',
    sidebar_items (map label_json ls) (td, (c1, c2, c3)) = Ok (td', (c1', c2', c3')) /\
    td' == td + nq (nsum (map count ls)) /\ c1' == c1 + nq (label_total 1 ls) /\
    c2' == c2 + nq (label_total 2 ls) /\ c3' == c3 + nq (label_total 3 ls).
Proof.
  induction ls as [|l ls IH]; intros td c1 c2 c3.
  - exists td, c1, c2, c3. split; [reflexivity|].
    unfold nq; cbn; repeat split; ring.
  - cbn [map sidebar_items].
    replace (py_get "label" JNull (label_json l)) with (Ok (JNum (inject_Z (label l)))) by reflexivity.
    replace (py_get "count" (JNum 1) (label_json l)) with (Ok (JNum (nq (count l)))) by reflexivity.
    cbn [add_number num_of bind snd fst]. unfold nq at 2.
    rewrite count_label_json. cbn [bind].
    assert (Hs : nsum (count l :: map count ls) = (count l + nsum (map count ls))%nat).
    { rewrite !nsum_list_sum. reflexivity. }
    rewrite Hs, !label_total_cons.
    destruct (Z.eqb_spec (label l) 1) as [E1|N1];
    [|destruct (Z.eqb_spec (label l) 2) as [E2|N2];
      [|destruct (Z.eqb_spec (label l) 3) as [E3|N3]]];
    match goal with
    | |- context [sidebar_items _ (?a, (?b, ?c, ?d))] =>
        destruct (IH a b c d) as [td' [c1' [c2' [c3' [Hr [Ht [H1 [H2 H3]]]]]]]]
    end;
    exists td', c1', c2', c3'; (split; [exact Hr|]);
    rewrite Ht, H1, H2, H3; rewrite !nq_add;
    repeat match goal with
    | H : label l = ?k |- _ => rewrite H
    | H : label l <> ?k |- _ => apply Z.eqb_neq in H; rewrite H
    end; cbn [Z.eqb Pos.eqb]; unfold nq; cbn [Z.of_nat inject_Z];
    repeat split; ring.
Qed.


Lemma nsum_app : forall xs ys, nsum (xs ++ ys) = (nsum xs + nsum ys)%nat.
Proof. intros xs ys. rewrite !nsum_list_sum. apply list_sum_app. Qed.

Lemma label_total_app : forall k xs ys,
  label_total k (xs ++ ys) = (label_total k xs + label_total k ys)%nat.
Proof. intros k xs ys. unfold label_total. rewrite filter_app, map_app. apply nsum_app. Qed.

Lemma sidebar_features_json : forall fs td c1 c2 c3,
  exists td' c1' c2' c3',
    sidebar_features (map feature_json fs) (td, (c1, c2, c3)) = Ok (td', (c1', c2', c3')) /\
    td' == td + nq (nsum (map count (all_label_stats fs))) /\
    c1' == c1 + nq (label_total 1 (all_label_stats fs)) /\
    c2' == c2 + nq (label_total 2 (all_label_stats fs)) /\
    c3' == c3 + nq (label_total 3 (all_label_stats fs)).
Proof.
  induction fs as [|f fs IH]; intros td c1 c2 c3.
  - exists td, c1, c2, c3. split; [reflexivity|].
    unfold nq; cbn; repeat split; ring.
  - cbn [map sidebar_features].
    replace (py_get "properties" (JObj []) (feature_json f))
      with (Ok (JObj [("image", JStr (image f)); ("image_id", JStr (image_id f));
                      ("labels", JArr (map label_json (labels f)))])) by reflexivity.
    cbn [bind py_get obj_get fold_left fst snd String.eqb Ascii.eqb Bool.eqb py_iter].
    destruct (sidebar_items_json (labels f) td c1 c2 c3)
      as [td1 [d1 [d2 [d3 [Hr [Ht [H1 [H2 H3]]]]]]]].
    rewrite Hr. cbn [bind].
    destruct (IH td1 d1 d2 d3) as [td' [c1' [c2' [c3' [Hr' [Ht' [H1' [H2' H3']]]]]]]].
    exists td', c1', c2', c3'. split; [exact Hr'|].
    replace (all_label_stats (f :: fs)) with (labels f ++ all_label_stats fs)%list by reflexivity.
    rewrite map_app, nsum_app, !label_total_app, !nq_add.
    rewrite Ht', H1', H2', H3', Ht, H1, H2, H3. repeat split; ring.
Qed.

Lemma sidebar_collection_stats : forall c fs, col_features c = Some fs ->
  exists s, sidebar_stats (Some (collection_json c)) = Ok (Some s) /\
    sb_images s = List.length fs /\
    sb_detections s == nq (nsum (map count (all_label_stats fs))) /\
    sb_cracks s == nq (label_total 1 (all_label_stats fs)) /\
    sb_manholes s == nq (label_total 2 (all_label_stats fs)) /\
    sb_potholes s == nq (label_total 3 (all_label_stats fs)).
Proof.
  intros c fs Hc. destruct (collection_json_features c fs Hc) as [Ht Hg].
  assert (Hin : py_contains "features" (collection_json c) = Ok true).
  { unfold collection_json. rewrite Hc. destruct (col_type c), (col_summary c); reflexivity. }
  destruct (sidebar_features_json fs 0 0 0 0) as [td [c1 [c2 [c3 [Hr [H0 [H1 [H2 H3]]]]]]]].
  exists {| sb_images := List.length fs; sb_detections := td; sb_cracks := c1;
            sb_manholes := c2; sb_potholes := c3 |}.
  unfold sidebar_stats. rewrite Ht, Hin. cbn [negb bind]. rewrite Hg. cbn [bind py_len py_iter].
  rewrite Hr, length_map. cbn [bind]. split; [reflexivity|].
  cbn [sb_images sb_detections sb_cracks sb_manholes sb_potholes].
  rewrite H0, H1, H2, H3. repeat split; ring.
Qed.


Lemma mobile_feature : forall fn ts ca lon lat, exists f,
  user_feature (mobile_entry fn ts ca lon lat) = Ok f /\ wf_map_feature f = true /\
  feature_lat f = JNum lat /\ feature_lon f = JNum lon /\
  dominant_loop (feature_items f) (JNum 0) JNull = Ok (JNum 3) /\
  (forall l, filter_keeps l f = existsb (Z.eqb 3) l).
Proof.
  intros fn ts ca lon lat. eexists. split; [reflexivity|].
  split; [reflexivity|]. split; [reflexivity|]. split; [reflexivity|].
  split; [reflexivity|].
  intros l. unfold filter_keeps. cbn [feature_items get_or obj_get fold_left].
  cbn. rewrite orb_false_r. apply existsb_ext'. intros z.
  change (JNum 3) with (JNum (inject_Z 3)). apply eq_int_inject.
Qed.

Lemma mobile_markers_loop : forall fl es,
  markers_loop fl (user_features (map mobile_of es))
  = (if match fl with None => true | Some l => existsb (Z.eqb 3) l end
     then map (fun e => match e with (_, _, _, lon, lat) =>
                {| mk_lat := JNum lat; mk_lon := JNum lon; mk_color := "orange" |} end) es
     else [], None).
Proof.
  intros fl es. induction es as [|[[[[fn ts] ca] lon] lat] es IH].
  - destruct fl as [l|]; [destruct (existsb _ l)|]; reflexivity.
  - destruct (mobile_feature fn ts ca lon lat) as [f [Hf [Hwf [Hla [Hlo [Hd Hk]]]]]].
    cbn [map mobile_of user_features]. rewrite Hf. cbn [markers_loop].
    destruct (feature_marker_wf fl f Hwf) as [dom [Hdom Hm]].
    rewrite Hd in Hdom. injection Hdom as <-. rewrite Hm, IH, Hla, Hlo.
    destruct fl as [l|].
    + rewrite Hk. destruct (existsb (Z.eqb 3) l); reflexivity.
    + reflexivity.
Qed.

(** Without [detections.json] and [points.geojson], every crowd upload
    becomes an orange (pothole) marker at the latitude and longitude it was
    uploaded with, in upload order; the label filter shows all of them when
    it contains 3 and none otherwise. *)
Theorem mobile_uploads_markers : forall es fl,
  create_map_markers true SrcMissing SrcMissing (SrcJson (JArr (map mobile_of es))) fl
  = (if match fl with None => true | Some l => existsb (Z.eqb 3) l end
     then map (fun e => match e with (_, _, _, lon, lat) =>
                {| mk_lat := JNum lat; mk_lon := JNum lon; mk_color := "orange" |} end) es
     else [], None).
Proof.
  intros es fl. unfold create_map_markers, load_geojson. cbn [negb py_iter bind app].
  rewrite <- (mobile_markers_loop fl es).
  destruct (user_features (map mobile_of es)) as [|f fs] eqn:E.
  - reflexivity.
  - reflexivity.
Qed.

Lemma user_feature_obj : forall kvs, exists f, user_feature (JObj kvs) = Ok f.
Proof. intros kvs. eexists. reflexivity. Qed.

Lemma user_feature_not_obj : forall v, (forall kvs, v <> JObj kvs) ->
  exists e, user_feature v = Raise e.
Proof.
  intros v Hv. destruct v as [| | | | |kvs]; try (eexists; reflexivity).
  exfalso. exact (Hv kvs eq_refl).
Qed.

(** [load_geojson] silently drops the crowd-upload entries from the first
    one that is not an object on: the result is the one for the entries
    before it, and no exception escapes. *)
Theorem load_geojson_user_prefix : forall points objs v rest,
  Forall (fun e => exists kvs, e = JObj kvs) objs -> (forall kvs, v <> JObj kvs) ->
  load_geojson points (SrcJson (JArr (objs ++ v :: rest)))
  = load_geojson points (SrcJson (JArr objs)).
Proof.
  intros points objs v rest Hobjs Hv.
  assert (H : user_features (objs ++ v :: rest) = user_features objs).
  { induction Hobjs as [|e objs [kvs ->] _ IH].
    - cbn [app user_features]. destruct (user_feature_not_obj v Hv) as [e He].
      rewrite He. reflexivity.
    - cbn [app user_features]. destruct (user_feature_obj kvs) as [f Hf]. rewrite Hf, IH.
      reflexivity. }
  unfold load_geojson. cbn [py_iter]. rewrite H. reflexivity.
Qed.


(** After [save_detections_to_json] writes a report, the results sidebar
    read from the collection file agrees with the summary written beside
    it: the image count is [total_images], the detection count is
    [total_detections], and the crack, manhole and pothole counts are the
    sums of the counts of the label entries with label 1, 2 and 3. *)
Theorem save_sidebar_matches_summary :
  forall image_path boxes lbls scores mm threshold file f file',
  save_detections_to_json image_path boxes lbls scores mm threshold file = Ok (Some f, file') ->
  exists c fs s sb, file' = FObject c /\ col_features c = Some fs /\ col_summary c = Some s /\
    sidebar_stats (Some (collection_json c)) = Ok (Some sb) /\
    sb_images sb = total_images s /\
    sb_detections sb == nq (total_detections s) /\
    sb_cracks sb == nq (label_total 1 (all_label_stats fs)) /\
    sb_manholes sb == nq (label_total 2 (all_label_stats fs)) /\
    sb_potholes sb == nq (label_total 3 (all_label_stats fs)).
Proof.
  intros image_path boxes lbls scores mm threshold file f file' H.
  destruct (save_some_inv _ _ _ _ _ _ _ _ _ H) as [_ [fs [s [_ [Hs ->]]]]].
  destruct (summary_of_props _ _ Hs) as [Hti [_ [Htd _]]].
  destruct (sidebar_collection_stats {| col_type := col_type (load_collection file);
             col_features := Some (fs ++ [f])%list; col_summary := Some s |} (fs ++ [f])%list eq_refl)
    as [sb [Hsb [Hi [Hd [H1 [H2 H3]]]]]].
  eexists _, (fs ++ [f])%list, s, sb. split; [reflexivity|]. split; [reflexivity|].
  split; [reflexivity|]. split; [exact Hsb|].
  rewrite Hti, Htd. split; [exact Hi|]. split; [exact Hd|]. split; [exact H1|]. split; assumption.
Qed.

(** On map features with numeric coordinates, a string (or falsy) image
    name and renderable label entries, the marker loop of
    [add_geojson_markers] raises nothing and draws one marker per feature
    the label filter keeps, in order: at the feature's coordinates
    ([coordinates[1]] is the latitude), coloured after the first label
    entry with the largest positive count, gray when no count is
    positive. *)
Theorem wf_features_markers : forall fl fs, forallb wf_map_feature fs = true ->
  exists ms, markers_loop fl fs = (ms, None) /\
  Forall2 map_marker_rel (match fl with None => fs | Some l => filter (filter_keeps l) fs end) ms.
Proof.
  intros [l|] fs H.
  - rewrite markers_loop_filter by exact H. apply markers_loop_wf_spec.
    apply forallb_forall. intros x Hx. apply filter_In in Hx as [Hx _].
    rewrite forallb_forall in H. apply H. exact Hx.
  - apply markers_loop_wf_spec. exact H.
Qed.

Lemma wf_features_markers_witness :
  forallb wf_map_feature [example_map_feature; example_map_feature] = true /\
  exists ms, markers_loop (Some [3%Z]) [example_map_feature; example_map_feature] = (ms, None) /\
    Forall2 map_marker_rel (filter (filter_keeps [3%Z]) [example_map_feature; example_map_feature]) ms.
Proof.
  split; [vm_compute; reflexivity|].
  apply (wf_features_markers (Some [3%Z]) [example_map_feature; example_map_feature]).
  vm_compute. reflexivity.
Defined.

Lemma collection_markers_witness :
  col_features (example_collection [example_feature (JNum 45)]) = Some [example_feature (JNum 45)] /\
  Forall (fun f => is_number (longitude f) = true /\ is_number (latitude f) = true)
    [example_feature (JNum 45)] /\
  exists ms, add_geojson_markers (Some (collection_json (example_collection [example_feature (JNum 45)])))
               (Some [3%Z]) = (ms, None) /\
    Forall2 saved_marker_rel (filter (keeps_labels [3%Z]) [example_feature (JNum 45)]) ms.
Proof.
  assert (Hn : Forall (fun f => is_number (longitude f) = true /\ is_number (latitude f) = true)
                 [example_feature (JNum 45)]).
  { constructor; [split; reflexivity|constructor]. }
  split; [reflexivity|]. split; [exact Hn|].
  exact (collection_markers (example_collection [example_feature (JNum 45)])
           [example_feature (JNum 45)] (Some [3%Z]) eq_refl Hn).
Defined.

Lemma missing_geometry_stops_map_witness :
  forallb wf_map_feature [example_map_feature] = true /\
  obj_get "geometry" [("properties", JObj [])] = None /\
  markers_loop None ([example_map_feature] ++ JObj [("properties", JObj [])] :: [example_map_feature])
  = (fst (markers_loop None [example_map_feature]), Some KeyError).
Proof.
  split; [vm_compute; reflexivity|]. split; [reflexivity|].
  apply (missing_geometry_stops_map None [example_map_feature] [("properties", JObj [])]
           [example_map_feature]); vm_compute; reflexivity.
Defined.

Lemma collection_bad_coordinate_stops_map_witness :
  col_features (example_collection [example_feature (JNum 45); example_feature (JStr "45.1")])
    = Some ([example_feature (JNum 45)] ++ example_feature (JStr "45.1") :: [])%list /\
  add_geojson_markers
    (Some (collection_json (example_collection [example_feature (JNum 45);
                                                example_feature (JStr "45.1")]))) None
  = (fst (markers_loop None (map feature_json [example_feature (JNum 45)])), Some ValueError).
Proof.
  split; [reflexivity|].
  apply (collection_bad_coordinate_stops_map
           (example_collection [example_feature (JNum 45); example_feature (JStr "45.1")])
           [example_feature (JNum 45)] (example_feature (JStr "45.1")) [] None ValueError).
  - reflexivity.
  - constructor; [split; reflexivity|constructor].
  - left. reflexivity.
Defined.

Lemma load_geojson_user_prefix_witness :
  load_geojson SrcMissing
    (SrcJson (JArr [mobile_entry "a.jpg" "1" "t" 12 45; JStr "b.jpg"; mobile_entry "c.jpg" "2" "t" 13 46]))
  = load_geojson SrcMissing (SrcJson (JArr [mobile_entry "a.jpg" "1" "t" 12 45])).
Proof.
  apply (load_geojson_user_prefix SrcMissing [mobile_entry "a.jpg" "1" "t" 12 45] (JStr "b.jpg")
           [mobile_entry "c.jpg" "2" "t" 13 46]).
  - constructor; [eexists; reflexivity|constructor].
  - intros kvs. discriminate.
Defined.

Lemma save_sidebar_matches_summary_witness :
  save_detections_to_json "img/abc_1.jpg" [] [3; 1; 3] [8 # 10; 1 # 10; 1 # 2]
    example_metadata (1 # 2) FAbsent = Ok (Some example_report, example_file) /\
  exists c fs s sb, example_file = FObject c /\ col_features c = Some fs /\ col_summary c = Some s /\
    sidebar_stats (Some (collection_json c)) = Ok (Some sb) /\
    sb_images sb = total_images s /\
    sb_detections sb == nq (total_detections s) /\
    sb_cracks sb == nq (label_total 1 (all_label_stats fs)) /\
    sb_manholes sb == nq (label_total 2 (all_label_stats fs)) /\
    sb_potholes sb == nq (label_total 3 (all_label_stats fs)).
Proof.
  split; [vm_compute; reflexivity|].
  apply (save_sidebar_matches_summary "img/abc_1.jpg" [] [3; 1; 3] [8 # 10; 1 # 10; 1 # 2]
           example_metadata (1 # 2) FAbsent example_report).
  vm_compute. reflexivity.
Defined.

(** C6 (amended): inference runs when the session has not run it yet, or
    when some crowd-upload [.jpg]/[.jpeg]/[.png] image has no
    [stem + "_detected" + suffix] counterpart in the output directory;
    when it runs, every candidate image of both directories is selected,
    those with a counterpart included; otherwise none is. When it runs and
    the metadata files load, the output directory and [detections.json]
    are wiped first: the run does what it does on an empty output
    directory, re-runs every selected image in order, and afterwards the
    output directory and [detections.json] hold only what this run
    wrote. *)
Theorem images_to_process_gate : forall users_exists users output,
  should_run_inference false users_exists users output = true /\
  (should_run_inference true users_exists users output = true <->
     users_exists = true /\
     exists img, In img (user_images users) /\ ~ In (detected_name img) output) /\
  (forall done pre_exists pre img,
     In img (images_to_process done pre_exists pre users_exists users output) <->
     should_run_inference done users_exists users output = true /\
     In img (inference_candidates pre_exists pre users_exists users)) /\
  (forall session w h thr done pre_exists pre pm um mm file,
     images_to_process done pre_exists pre users_exists users output <> [] ->
     run_metadata_map pm um = Ok mm ->
     run_inference_on_images session w h thr pre_exists pre users_exists users pm um (output, file)
       = run_inference_on_images session w h thr pre_exists pre users_exists users pm um
           ([], FAbsent) /\
     (forall rs outs' file',
        run_inference_on_images session w h thr pre_exists pre users_exists users pm um
          (output, file) = (Some rs, (outs', file')) ->
        map result_path rs = images_to_process done pre_exists pre users_exists users output /\
        col_features (load_collection file') = Some (result_features rs) /\
        (forall x, In x outs' ->
           exists p, In p (images_to_process done pre_exists pre users_exists users output) /\
                     x = detected_name p))).
Proof.
  intros users_exists users output. split; [reflexivity|]. split; [|split].
  - unfold should_run_inference. simpl. destruct users_exists.
    + rewrite existsb_exists. split.
      * intros [img [Hin Hn]]. split; [reflexivity|]. exists img. split; [exact Hin|].
        intros Hout. apply negb_true_iff in Hn.
        assert (existsb (String.eqb (detected_name img)) output = true) as Ht.
        { apply existsb_exists. exists (detected_name img).
          split; [exact Hout | apply String.eqb_refl]. }
        congruence.
      * intros [_ [img [Hin Hn]]]. exists img. split; [exact Hin|].
        apply negb_true_iff. destruct (existsb _ output) eqn:E; [|reflexivity].
        apply existsb_exists in E. destruct E as [x [Hx Heq]].
        apply String.eqb_eq in Heq. subst x. contradiction.
    + split; [discriminate | intros [H _]; discriminate].
  - intros done pre_exists pre img. unfold images_to_process.
    destruct (should_run_inference done users_exists users output); simpl.
    + tauto.
    + split; [contradiction | intros [H _]; discriminate].
  - intros session w h thr done pre_exists pre pm um mm file Hne Hm.
    assert (Hsel : images_to_process done pre_exists pre users_exists users output
                   = inference_candidates pre_exists pre users_exists users).
    { unfold images_to_process in Hne |- *.
      destruct (should_run_inference done users_exists users output);
        [reflexivity | contradiction Hne; reflexivity]. }
    rewrite Hsel in Hne |- *. split.
    + unfold run_inference_on_images.
      destruct (inference_candidates pre_exists pre users_exists users);
        [contradiction Hne; reflexivity|].
      rewrite Hm. reflexivity.
    + intros rs outs' file' H.
      destruct (run_inference_on_images_inv _ _ _ _ _ _ _ _ _ _ _ _ _ H)
        as [detect [mm' [_ [_ Hl]]]].
      destruct (batch_loop_spec detect w h mm' true true thr _ [] FAbsent rs outs' file' []
                  eq_refl Hl) as [Hp [Hf [_ [Hsub _]]]].
      split; [exact Hp|]. split; [exact Hf|].
      intros x Hx. destruct (Hsub x Hx) as [[]|Hq]. exact Hq.
Qed.

Lemma images_to_process_gate_witness :
  images_to_process true true ["abc_1.jpg"] true ["a.jpg"; "b.jpg"] ["a_detected.jpg"] <> [] /\
  run_metadata_map example_pre_meta SrcMissing
    = Ok [(KStr "abc", JObj [("id", JStr "abc");
                             ("geometry", JObj [("coordinates", JArr [JNum 12; JNum 45])])])] /\
  run_inference_on_images (Ok example_detector) 100 100 (1 # 2) true ["abc_1.jpg"] true
    ["a.jpg"; "b.jpg"] example_pre_meta SrcMissing (["a_detected.jpg"], FUnreadable)
  = run_inference_on_images (Ok example_detector) 100 100 (1 # 2) true ["abc_1.jpg"] true
    ["a.jpg"; "b.jpg"] example_pre_meta SrcMissing ([], FAbsent).
Proof.
  assert (H1 : images_to_process true true ["abc_1.jpg"] true ["a.jpg"; "b.jpg"]
                ["a_detected.jpg"] <> []) by (vm_compute; discriminate).
  split; [exact H1|]. split; [reflexivity|].
  exact (proj1 (proj2 (proj2 (proj2 (images_to_process_gate true ["a.jpg"; "b.jpg"]
           ["a_detected.jpg"]))) (Ok example_detector) 100 100 (1 # 2) true true ["abc_1.jpg"]
           example_pre_meta SrcMissing _ FUnreadable H1 eq_refl)).
Defined.

(** C5 (code bug): [load_metadata] leaves [json.load] unguarded, so an
    unparsable crowd-upload metadata file aborts every inference run
    ([run_inference_on_images] returns [None], the output untouched),
    while [load_geojson] treats the same file as missing; with the file
    treated as missing, the run would go through whenever there are
    candidate images and the pre-loaded metadata file loads. *)
Theorem unparsable_user_metadata_diverges :
  (forall session w h thr pe pd ue ud pm st,
     run_inference_on_images session w h thr pe pd ue ud pm SrcUnparsable st = (None, st)) /\
  (forall points, load_geojson points SrcUnparsable = load_geojson points SrcMissing) /\
  (forall detect w h thr pe pd ue ud pm st m,
     inference_candidates pe pd ue ud <> [] -> load_metadata pm = Ok m ->
     exists rs st', run_inference_on_images (Ok detect) w h thr pe pd ue ud pm SrcMissing st
                    = (Some rs, st')).
Proof.
  split; [|split].
  - intros session w h thr pe pd ue ud pm st. unfold run_inference_on_images.
    destruct (inference_candidates pe pd ue ud); [reflexivity|].
    assert (He : exists e, run_metadata_map pm SrcUnparsable = Raise e).
    { unfold run_metadata_map. destruct (merge_source [] pm) as [a|e].
      - exists JSONDecodeError. reflexivity.
      - exists e. reflexivity. }
    destruct He as [e ->]. reflexivity.
  - intros points. reflexivity.
  - intros detect w h thr pe pd ue ud pm st m Hc Hm.
    assert (Hmm : exists mm, run_metadata_map pm SrcMissing = Ok mm).
    { unfold run_metadata_map. destruct pm as [| |j].
      - exists []. reflexivity.
      - discriminate Hm.
      - exists (dict_update [] m). unfold merge_source at 1. rewrite Hm. reflexivity. }
    destruct Hmm as [mm Hmm]. unfold run_inference_on_images.
    destruct (inference_candidates pe pd ue ud) as [|c cs]; [contradiction Hc; reflexivity|].
    rewrite Hmm. unfold process_image_batch.
    destruct (batch_loop detect w h mm true true thr (c :: cs) ([], FAbsent)) as [rs st'].
    exists rs, st'. reflexivity.
Qed.
